(** * optimize_logo.py: a shallow embedding and its properties

    The script re-compresses one PNG in place and caps its width at 512
    pixels.  Everything it does goes through three collaborators: the
    Python runtime (int and float arithmetic, [try]/[except], [print]),
    the file system ([os.path.exists]) and Pillow ([Image.open],
    [Image.resize], [Image.save]).  The embedding below keeps the script's
    control flow as it is written and makes those collaborators explicit:

    - floats are IEEE 754 binary64 values, taken from the Standard
      Library's [SpecFloat] (precision 53, [emax] 1024);
    - exceptions are values carrying their class hierarchy, so that the two
      [except] clauses dispatch the way Python's do;
    - the file system is a finite map from paths to files, the console a
      list of lines, and every call that leaves the script is recorded in
      a trace;
    - what Pillow and the operating system decide on their own (does the
      module load, does the call fail, what does a failed save leave
      behind) is read from an environment [Env]. *)

From Stdlib Require Import ZArith List String Ascii Bool Lia.
From Stdlib Require Import SpecFloat DecimalString.
From stdpp Require Import base option gmap strings.

Import ListNotations.
Local Open Scope string_scope.
Local Open Scope Z_scope.

(** ** Python exceptions *)

Module Py.

(** An exception object: the names of its class and of all its ancestors
    (the class's [__mro__], most specific first) and [str(e)]. *)
Record Exn := mkExn { exn_mro : list string; exn_str : string }.

Definition BaseException := "BaseException".
Definition Exception := "Exception".
Definition ImportError := "ImportError".

(** [isinstance(e, cls)]: what an [except cls] clause tests. *)
Definition isinstance (e : Exn) (cls : string) : bool :=
  existsb (String.eqb cls) (exn_mro e).

Definition raise_of (cls : list string) (msg : string) : Exn :=
  mkExn (cls ++ [Exception; BaseException])%list msg.

Definition ModuleNotFoundError msg := raise_of ["ModuleNotFoundError"; ImportError] msg.
Definition ZeroDivisionError msg := raise_of ["ZeroDivisionError"; "ArithmeticError"] msg.
Definition OverflowError msg := raise_of ["OverflowError"; "ArithmeticError"] msg.
Definition ValueError msg := raise_of ["ValueError"] msg.
Definition OSError msg := raise_of ["OSError"] msg.
Definition PermissionError msg := raise_of ["PermissionError"; "OSError"] msg.
Definition UnidentifiedImageError msg := raise_of ["UnidentifiedImageError"; "OSError"] msg.
(** Outside the [Exception] branch of the hierarchy. *)
Definition KeyboardInterrupt := mkExn ["KeyboardInterrupt"; BaseException] "".

(** The result of evaluating a statement or an expression. *)
Inductive Outcome (A : Type) : Type :=
| Normal (a : A)
| Raised (e : Exn).
Arguments Normal {A} a.
Arguments Raised {A} e.

(** [str(n)] for an int. *)
Definition str_int (n : Z) : string := NilZero.string_of_int (Z.to_int n).

(** [str((a, b))] for a pair of ints, as an f-string prints [img.size]. *)
Definition str_pair (p : Z * Z) : string :=
  "(" ++ str_int (fst p) ++ ", " ++ str_int (snd p) ++ ")".

End Py.

(** ** binary64 arithmetic as Python performs it *)

Module Binary64.

Definition prec : Z := 53.
Definition emax : Z := 1024.

Definition float := spec_float.

Definition div : float -> float -> float := SFdiv prec emax.
Definition mul : float -> float -> float := SFmul prec emax.

(** An int as an exact, not yet rounded, float operand. *)
Definition exact (n : Z) : float :=
  match n with
  | Z0 => S754_zero false
  | Zpos p => S754_finite false p 0
  | Zneg p => S754_finite true p 0
  end.

(** [float(n)]: the nearest binary64 value, ties to even. *)
Definition of_int (n : Z) : float := binary_normalize prec emax n 0 false.

Definition is_finite (x : float) : bool :=
  match x with
  | S754_zero _ | S754_finite _ _ _ => true
  | _ => false
  end.

(** The integer part of a finite float, rounded towards zero. *)
Definition trunc (x : float) : Z :=
  match x with
  | S754_finite s m e =>
      let a := if 0 <=? e then Z.shiftl (Zpos m) e else Z.shiftr (Zpos m) (- e) in
      if s then - a else a
  | _ => 0
  end.

(** [a / b] on ints (true division): the correctly rounded quotient. *)
Definition truediv (a b : Z) : Py.Outcome float :=
  if b =? 0 then Py.Raised (Py.ZeroDivisionError "division by zero")
  else
    let q := div (exact a) (exact b) in
    if is_finite q then Py.Normal q
    else Py.Raised (Py.OverflowError "integer division result too large for a float").

(** [n * x] with [n] an int and [x] a float: [n] is converted first. *)
Definition int_mul (n : Z) (x : float) : Py.Outcome float :=
  let f := of_int n in
  if is_finite f then Py.Normal (mul f x)
  else Py.Raised (Py.OverflowError "int too large to convert to float").

(** [int(x)]. *)
Definition to_int (x : float) : Py.Outcome Z :=
  match x with
  | S754_nan => Py.Raised (Py.ValueError "cannot convert float NaN to integer")
  | S754_infinity _ =>
      Py.Raised (Py.OverflowError "cannot convert float infinity to integer")
  | _ => Py.Normal (trunc x)
  end.

(** Where the exact quotient [N / D] sits between the integers [N / D]
    and [N / D + 1]: the location that the rounding functions consume, and
    the shift record that carries it. *)
Definition loc_of (N D : Z) : location :=
  if N mod D =? 0 then loc_Exact else loc_Inexact (2 * (N mod D) ?= D).

Definition rec_of (N D : Z) : shr_record :=
  shr_record_of_loc (N / D) (loc_of N D).

End Binary64.

(** ** The world the script runs in *)

(** A decoded bitmap.  The pixels are opaque to everything stated here. *)
Record Image := mkImage { width : Z; height : Z }.

Definition size (img : Image) : Z * Z := (width img, height img).

(** What a path can hold: an encoded image, or bytes Pillow cannot decode. *)
Inductive File :=
| ImageFile (img : Image)
| NotAnImage.

Inductive Resampling := NEAREST | BOX | BILINEAR | HAMMING | BICUBIC | LANCZOS.

(** Everything observable that the script does, in order. *)
Inductive Event :=
| PathExists (p : string)
| ImageOpen (p : string)
| ImageResize (img : Image) (sz : Z * Z) (resample : Resampling)
| ImageSave (img : Image) (p : string) (optimize : bool) (quality : Z)
| Stdout (line : string).

Record State := mkState {
  fs : gmap string File;
  trace : list Event
}.

(** The decisions that are not the script's.  Each library call happens at
    most once in a run, so one entry per call is enough.
    - [import_PIL]: the exception raised by [from PIL import Image], if any;
    - [open_fault], [resize_fault]: the exception raised by the call, if any
      (a permission error, a truncated file, ...);
    - [save_fault]: the exception raised by [save], if any, together with
      what the failed write leaves at the path ([None]: no file). *)
Record Env := mkEnv {
  import_PIL : option Py.Exn;
  open_fault : option Py.Exn;
  resize_fault : option Py.Exn;
  save_fault : option (Py.Exn * option File)
}.

(** ** A monad for statements: environment, state and exceptions *)

Definition M (A : Type) : Type := Env -> State -> Py.Outcome A * State.

Definition ret {A} (a : A) : M A := fun _ st => (Py.Normal a, st).

Definition bind {A B} (c : M A) (k : A -> M B) : M B :=
  fun env st =>
    match c env st with
    | (Py.Normal a, st') => k a env st'
    | (Py.Raised e, st') => (Py.Raised e, st')
    end.

Definition raise {A} (e : Py.Exn) : M A := fun _ st => (Py.Raised e, st).

Definition lift {A} (o : Py.Outcome A) : M A := fun _ st => (o, st).

Definition ask : M Env := fun env st => (Py.Normal env, st).

Definition get : M State := fun _ st => (Py.Normal st, st).

Definition emit (ev : Event) : M unit :=
  fun _ st => (Py.Normal tt, mkState (fs st) (trace st ++ [ev])%list).

Definition write_fs (f : gmap string File -> gmap string File) : M unit :=
  fun _ st => (Py.Normal tt, mkState (f (fs st)) (trace st)).

(** [try: body except ...]: [handler e] is the suite of the first clause
    that matches [e], or [None] when no clause matches and [e] goes on. *)
Definition try_except {A} (body : M A) (handler : Py.Exn -> option (M A)) : M A :=
  fun env st =>
    match body env st with
    | (Py.Normal a, st') => (Py.Normal a, st')
    | (Py.Raised e, st') =>
        match handler e with
        | Some h => h env st'
        | None => (Py.Raised e, st')
        end
    end.

(** stdpp's monad notations: [x ← c; k] and [c;; k]. *)
#[global] Instance M_ret : MRet M := @ret.
#[global] Instance M_bind : MBind M := fun A B k c => bind c k.

(** ** The collaborators *)

Definition print (line : string) : M unit := emit (Stdout line).

(** [from PIL import Image] *)
Definition from_PIL_import_Image : M unit :=
  env ← ask;
  match import_PIL env with
  | Some e => raise e
  | None => ret tt
  end.

(** [import os]: part of every Python installation. *)
Definition import_os : M unit := ret tt.

(** [os.path.exists(p)] *)
Definition os_path_exists (p : string) : M bool :=
  emit (PathExists p);;
  st ← get;
  ret (match fs st !! p with Some _ => true | None => false end).

Definition backslash : ascii := ascii_of_nat 92.

(** [repr(p)] for the paths used here: quoted, backslashes doubled. *)
Fixpoint repr_body (s : string) : string :=
  match s with
  | EmptyString => EmptyString
  | String c s' =>
      if Ascii.eqb c backslash then String c (String c (repr_body s'))
      else String c (repr_body s')
  end.

Definition repr (s : string) : string := "'" ++ repr_body s ++ "'".

(** [Image.open(p)] *)
Definition Image_open (p : string) : M Image :=
  emit (ImageOpen p);;
  env ← ask;
  st ← get;
  match open_fault env with
  | Some e => raise e
  | None =>
      match fs st !! p with
      | Some (ImageFile img) => ret img
      | Some NotAnImage =>
          raise (Py.UnidentifiedImageError ("cannot identify image file " ++ repr p))
      | None =>
          raise (Py.raise_of ["FileNotFoundError"; "OSError"]
                   ("[Errno 2] No such file or directory: " ++ repr p))
      end
  end.

(** What Pillow's resize raises for a size with a dimension below 1. *)
Definition empty_size : Py.Exn := Py.ValueError "height and width must be > 0".

(** [img.resize(sz, resample)]: a new image of the size asked for; a size
    with a dimension below 1 is refused, whatever the environment. *)
Definition Image_resize (img : Image) (sz : Z * Z) (resample : Resampling) : M Image :=
  emit (ImageResize img sz resample);;
  env ← ask;
  match resize_fault env with
  | Some e => raise e
  | None =>
      if (fst sz <? 1) || (snd sz <? 1) then raise empty_size
      else ret (mkImage (fst sz) (snd sz))
  end.

(** [img.save(p, optimize=..., quality=...)] *)
Definition Image_save (img : Image) (p : string) (optimize : bool) (quality : Z) : M unit :=
  emit (ImageSave img p optimize quality);;
  env ← ask;
  match save_fault env with
  | Some (e, remains) =>
      write_fs (fun m => match remains with Some f => <[p := f]> m | None => delete p m end);;
      raise e
  | None => write_fs (fun m => <[p := ImageFile img]> m)
  end.

(** ** The script *)

Definition path : string :=
  "C:\Users\LAPTOP SHOP\.gemini\antigravity\scratch\EnchantedSecrets\client\public\logo.png".

(** [int(img.height * ratio)] with [ratio = 512 / img.width]. *)
Definition new_height_of (w h : Z) : Py.Outcome Z :=
  match Binary64.truediv 512 w with
  | Py.Normal ratio =>
      match Binary64.int_mul h ratio with
      | Py.Normal x => Binary64.to_int x
      | Py.Raised e => Py.Raised e
      end
  | Py.Raised e => Py.Raised e
  end.

(** The suite of the [try]. *)
Definition body : M unit :=
  from_PIL_import_Image;;
  import_os;;
  b ← os_path_exists path;
  if (b : bool) then
    img ← Image_open path;
    print ("Original size: " ++ Py.str_pair (size img));;
    if 512 <? width img then
      ratio ← lift (Binary64.truediv 512 (width img));
      x ← lift (Binary64.int_mul (height img) ratio);
      new_height ← lift (Binary64.to_int x);
      img ← Image_resize img (512, new_height) LANCZOS;
      Image_save img path true 85;;
      print ("Resized to: " ++ Py.str_pair (size img))
    else
      print "Image small enough, skipping resize.";;
      Image_save img path true 85;;
      print "Optimized existing image."
  else ret tt.

(** The two [except] clauses, in the order they are written. *)
Definition handlers (e : Py.Exn) : option (M unit) :=
  if Py.isinstance e Py.ImportError then Some (print "Pillow not installed")
  else if Py.isinstance e Py.Exception then Some (print ("Error: " ++ Py.exn_str e))
  else None.

Definition optimize_logo : M unit := try_except body handlers.

(** ** Running the script *)

Definition run (env : Env) (st : State) : Py.Outcome unit * State :=
  optimize_logo env st.

(** The lines printed, in order. *)
Definition console (t : list Event) : list string :=
  flat_map (fun ev => match ev with Stdout l => [l] | _ => [] end) t.

(** The exit status as far as the script decides it: 0 when the script runs
    to its end.  When an exception reaches the top, the status is the
    interpreter's business (a signal for [KeyboardInterrupt], the carried
    code for [SystemExit]) and is not modelled. *)
Definition exit_status (o : Py.Outcome unit) : option Z :=
  match o with
  | Py.Normal _ => Some 0
  | Py.Raised _ => None
  end.

(** A fresh process: the given files, nothing done yet. *)
Definition start (files : gmap string File) : State := mkState files [].

(** The environment in which everything works. *)
Definition no_fault : Env := mkEnv None None None None.

(** ** Vocabulary of the statements *)

(** The data model's requirement on an image. *)
Definition well_formed (img : Image) : Prop := 0 < width img /\ 0 < height img.

(** Sizes Pillow can hold: each dimension is a positive C [int]. *)
Definition pillow_size (img : Image) : Prop :=
  0 < width img < 2 ^ 31 /\ 0 < height img < 2 ^ 31.

(** Images Pillow agrees to open: above 178956970 pixels [Image.open]
    raises [DecompressionBombError]. *)
Definition pillow_opens (img : Image) : Prop :=
  0 < width img /\ 0 < height img /\ width img * height img <= 178956970.

(** The resize of a wide image is not asked with height 0. *)
Definition nonempty_resize (img : Image) : Prop :=
  512 < width img -> new_height_of (width img) (height img) <> Py.Normal 0.

(** The user interrupts the program while the file is being opened. *)
Definition interrupted : Env := mkEnv None (Some Py.KeyboardInterrupt) None None.

(** Is this event a call of [save]? *)
Definition is_save (ev : Event) : bool :=
  match ev with ImageSave _ _ _ _ => true | _ => false end.

(** Pillow is not installed. *)
Definition no_pillow : Env :=
  mkEnv (Some (Py.ModuleNotFoundError "No module named 'PIL'")) None None None.

(** The world after a run. *)
Definition processed (env : Env) (st : State) : State := snd (run env st).

(** What a run does, in order, when the image is at most 512 wide and
    nothing fails. *)
Definition small_events (img : Image) : list Event :=
  [PathExists path; ImageOpen path;
   Stdout ("Original size: " ++ Py.str_pair (size img));
   Stdout "Image small enough, skipping resize.";
   ImageSave img path true 85;
   Stdout "Optimized existing image."].

(** What a run does, in order, when the image is wider than 512, the new
    height is [nh] and nothing fails. *)
Definition resize_events (img : Image) (nh : Z) : list Event :=
  [PathExists path; ImageOpen path;
   Stdout ("Original size: " ++ Py.str_pair (size img));
   ImageResize img (512, nh) LANCZOS;
   ImageSave (mkImage 512 nh) path true 85;
   Stdout ("Resized to: " ++ Py.str_pair (512, nh))].

(** The file system after a [save] that failed, leaving [remains]. *)
Definition failed_save (remains : option File) (f : gmap string File) : gmap string File :=
  match remains with Some x => <[path := x]> f | None => delete path f end.

(** A logo file whose bytes are not an image, the exception Pillow raises
    for it, and the world at the moment it is raised. *)
Definition corrupt_logo : State := start {[ path := NotAnImage ]}.

Definition cannot_identify : Py.Exn :=
  Py.UnidentifiedImageError ("cannot identify image file " ++ repr path).

Definition corrupt_logo_opened : State :=
  mkState {[ path := NotAnImage ]} [PathExists path; ImageOpen path].

(** ** Vocabulary of the further properties *)

(** Does one of the two [except] clauses match the exception? *)
Definition caught (e : Py.Exn) : bool :=
  Py.isinstance e Py.ImportError || Py.isinstance e Py.Exception.

Definition caught_opt (o : option Py.Exn) : bool :=
  match o with Some e => caught e | None => true end.

(** Every fault the environment holds in store is one a clause matches. *)
Definition faults_caught (env : Env) : bool :=
  caught_opt (import_PIL env) && caught_opt (open_fault env) &&
  caught_opt (resize_fault env) &&
  match save_fault env with Some (e, _) => caught e | None => true end.

(** The exception [Image.open] raises on a file that exists, if any. *)
Definition open_exn (env : Env) (file : File) : option Py.Exn :=
  match open_fault env with
  | Some e => Some e
  | None =>
      match file with
      | ImageFile _ => None
      | NotAnImage => Some cannot_identify
      end
  end.

(** What a fresh process does, and what it prints. *)
Definition events_of (env : Env) (files : gmap string File) : list Event :=
  trace (processed env (start files)).

Definition printed (env : Env) (files : gmap string File) : list string :=
  console (events_of env files).

(** A disk that fills up while the logo is written: the file is left
    truncated, no longer an image. *)
Definition disk_full : Env :=
  mkEnv None None None
    (Some (Py.OSError "[Errno 28] No space left on device", Some NotAnImage)).

(** * Properties *)

(** ** binary64: what rounding does to a quotient and to a product *)

Module Binary64Facts.
  Import Binary64.

Lemma digits2_pos_bounds p :
  2 ^ (Zpos (digits2_pos p) - 1) <= Zpos p < 2 ^ Zpos (digits2_pos p).
Proof.
  induction p as [p IH | p IH |]; cbn [digits2_pos].
  - rewrite Pos2Z.inj_succ.
    replace (Z.succ (Zpos (digits2_pos p)) - 1) with (Z.succ (Zpos (digits2_pos p) - 1)) by lia.
    rewrite !Z.pow_succ_r by lia. lia.
  - rewrite Pos2Z.inj_succ.
    replace (Z.succ (Zpos (digits2_pos p)) - 1) with (Z.succ (Zpos (digits2_pos p) - 1)) by lia.
    rewrite !Z.pow_succ_r by lia. lia.
  - cbn. lia.
Qed.

Lemma Zdigits2_unique x k :
  2 ^ (k - 1) <= x < 2 ^ k -> 0 < k -> Zdigits2 x = k.
Proof.
  intros Hx Hk.
  assert (0 < x) by (pose proof (Z.pow_pos_nonneg 2 (k - 1)); lia).
  destruct x as [|p|p]; try lia. cbn [Zdigits2].
  pose proof (digits2_pos_bounds p) as Hp.
  set (d := Zpos (digits2_pos p)) in *.
  assert (Hd : 0 < d) by (unfold d; lia).
  destruct (Z.lt_trichotomy d k) as [Hlt | [Heq | Hgt]]; [|assumption|].
  - assert (2 ^ d <= 2 ^ (k - 1)) by (apply Z.pow_le_mono_r; lia). lia.
  - assert (2 ^ k <= 2 ^ (d - 1)) by (apply Z.pow_le_mono_r; lia). lia.
Qed.

Lemma shr_1_rec_of N D :
  0 <= N -> 0 < D -> shr_1 (rec_of N D) = rec_of N (2 * D).
Proof.
  intros HN HD. unfold rec_of, loc_of.
  pose proof (Z.div_mod N D ltac:(lia)) as E.
  pose proof (Z.mod_pos_bound N D HD) as B.
  pose proof (Z.div_pos N D HN HD) as Q.
  set (q := N / D) in *. set (r := N mod D) in *.
  pose proof (Z.div_mod q 2 ltac:(lia)) as E2.
  pose proof (Z.mod_pos_bound q 2 ltac:(lia)) as B2.
  assert (Hq2 : N / (2 * D) = q / 2).
  { symmetry. apply Z.div_unique with (r := (q mod 2) * D + r); nia. }
  assert (Hr2 : N mod (2 * D) = (q mod 2) * D + r).
  { symmetry. apply Z.mod_unique with (q := q / 2); nia. }
  rewrite Hq2, Hr2.
  assert (Hshape : (q = 0 /\ q / 2 = 0 /\ q mod 2 = 0) \/
                   (q = 1 /\ q / 2 = 0 /\ q mod 2 = 1) \/
                   (exists p, q = Zpos (xO p) /\ q / 2 = Zpos p /\ q mod 2 = 0) \/
                   (exists p, q = Zpos (xI p) /\ q / 2 = Zpos p /\ q mod 2 = 1)).
  { destruct q as [|[p|p|]|p]; try lia.
    - right; right; right. exists p. split; [reflexivity|].
      rewrite Pos2Z.inj_xI in *. lia.
    - right; right; left. exists p. split; [reflexivity|].
      rewrite Pos2Z.inj_xO in *. lia. }
  destruct (Z.eqb_spec r 0) as [Hr0 | Hr0];
    [| destruct (Z.compare_spec (2 * r) D) as [Hc | Hc | Hc]];
    destruct Hshape as [(-> & -> & ->) | [(-> & -> & ->) | [(p & -> & -> & ->) | (p & -> & -> & ->)]]];
    cbn [shr_record_of_loc shr_1 orb];
    repeat match goal with
    | |- context [?a =? 0] => destruct (Z.eqb_spec a 0); try lia
    | |- context [?a ?= ?b] => destruct (Z.compare_spec a b); try lia
    end; try reflexivity.
Qed.

Lemma pow2_xI n : 2 ^ Zpos n~1 = 2 * (2 ^ Zpos n * 2 ^ Zpos n).
Proof.
  assert (E : Zpos n~1 = Zpos n + Zpos n + 1) by lia.
  rewrite E, !Z.pow_add_r by lia. change (2 ^ 1) with 2. ring.
Qed.

Lemma pow2_xO n : 2 ^ Zpos n~0 = 2 ^ Zpos n * 2 ^ Zpos n.
Proof.
  assert (E : Zpos n~0 = Zpos n + Zpos n) by lia.
  rewrite E, !Z.pow_add_r by lia. ring.
Qed.

Lemma iter_pos_shr_1 n : forall N D,
  0 <= N -> 0 < D -> SpecFloat.iter_pos shr_1 n (rec_of N D) = rec_of N (D * 2 ^ Zpos n).
Proof.
  induction n as [n IH | n IH |]; intros N D HN HD; cbn [SpecFloat.iter_pos].
  - assert (0 < 2 ^ Zpos n) by (apply Z.pow_pos_nonneg; lia).
    rewrite shr_1_rec_of, IH, IH by nia.
    f_equal. rewrite pow2_xI. ring.
  - assert (0 < 2 ^ Zpos n) by (apply Z.pow_pos_nonneg; lia).
    rewrite IH, IH by nia.
    f_equal. rewrite pow2_xO. ring.
  - rewrite shr_1_rec_of by assumption. f_equal. change (2 ^ 1) with 2. ring.
Qed.

Lemma shr_rec_of N D e n :
  0 <= N -> 0 < D ->
  shr (rec_of N D) e n = (rec_of N (D * 2 ^ Z.max 0 n), e + Z.max 0 n).
Proof.
  intros HN HD. destruct n as [|p|p]; cbn [shr].
  - change (Z.max 0 0) with 0. rewrite Z.mul_1_r, Z.add_0_r. reflexivity.
  - rewrite iter_pos_shr_1 by assumption.
    replace (Z.max 0 (Zpos p)) with (Zpos p) by lia. reflexivity.
  - replace (Z.max 0 (Zneg p)) with 0 by lia.
    rewrite Z.mul_1_r, Z.add_0_r. reflexivity.
Qed.

Lemma shr_m_rec_of N D : shr_m (rec_of N D) = N / D.
Proof. unfold rec_of. destruct (loc_of N D) as [|[]]; reflexivity. Qed.

Lemma loc_of_rec_of N D : loc_of_shr_record (rec_of N D) = loc_of N D.
Proof. unfold rec_of. destruct (loc_of N D) as [|[]]; reflexivity. Qed.

(** Rounding to nearest picks a neighbour at most half a unit away. *)
Lemma round_nearest_even_near N D :
  0 <= N -> 0 < D ->
  let m := round_nearest_even (N / D) (loc_of N D) in
  (m = N / D \/ m = N / D + 1) /\ 2 * Z.abs (m * D - N) <= D.
Proof.
  intros HN HD. unfold loc_of.
  pose proof (Z.div_mod N D ltac:(lia)) as E.
  pose proof (Z.mod_pos_bound N D HD) as B.
  set (q := N / D) in *. set (r := N mod D) in *.
  destruct (Z.eqb_spec r 0) as [Hr0 | Hr0];
    [| destruct (Z.compare_spec (2 * r) D) as [Hc | Hc | Hc]];
    cbn [round_nearest_even]; try destruct (Z.even q); cbv zeta; split; auto; nia.
Qed.

Lemma round_nearest_even_exact N :
  0 <= N -> round_nearest_even (N / 1) (loc_of N 1) = N.
Proof.
  intros HN. unfold loc_of. rewrite Z.mod_1_r, Z.div_1_r. reflexivity.
Qed.

Lemma fexp64 e : fexp 53 1024 e = Z.max (e - 53) (-1074).
Proof. reflexivity. Qed.

Lemma shr_record_of_loc_exact m : shr_record_of_loc m loc_Exact = rec_of m 1.
Proof. unfold rec_of, loc_of. rewrite Z.mod_1_r, Z.div_1_r. reflexivity. Qed.

Lemma Zdigits2_bounds x :
  0 < x -> 2 ^ (Zdigits2 x - 1) <= x < 2 ^ Zdigits2 x /\ 0 < Zdigits2 x.
Proof.
  destruct x as [|p|p]; try lia. intros _. cbn [Zdigits2].
  split; [apply digits2_pos_bounds | lia].
Qed.

(** Exact input that already fits the precision is returned unchanged. *)
Lemma binary_round_aux_fits mx ex :
  0 < mx -> Zdigits2 mx <= 53 -> -1074 <= ex + Zdigits2 mx - 53 -> ex <= 971 ->
  binary_round_aux 53 1024 false mx ex loc_Exact = S754_finite false (Z.to_pos mx) ex.
Proof.
  intros Hm Hd Hlo Hhi.
  assert (Hshr : forall l, shr_fexp 53 1024 mx ex l = (shr_record_of_loc mx l, ex)).
  { intros l. unfold shr_fexp. rewrite fexp64.
    destruct (Z.max (Zdigits2 mx + ex - 53) (-1074) - ex) eqn:E; try reflexivity; exfalso; lia. }
  unfold binary_round_aux. rewrite Hshr. cbn [shr_record_of_loc shr_m loc_of_shr_record round_nearest_even].
  rewrite Hshr. cbn [shr_record_of_loc shr_m].
  destruct mx as [|p|p]; try lia.
  destruct (Z.leb_spec ex (1024 - 53)); [reflexivity | lia].
Qed.

(** Rounding a quotient [N / D] whose integer part has at least 53 bits:
    the result is a normal number within relative error [2^-53]. *)
Lemma binary_round_aux_normal N D ex :
  0 <= N -> 0 < D ->
  let d := Zdigits2 (N / D) in
  53 <= d -> -1074 <= ex + d - 53 -> ex + d - 52 <= 971 ->
  exists m k,
    binary_round_aux 53 1024 false (N / D) ex (loc_of N D) = S754_finite false m (ex + k) /\
    d - 53 <= k <= d - 52 /\
    2 ^ 52 <= Zpos m < 2 ^ 53 /\
    2 ^ 53 * Z.abs (Zpos m * 2 ^ k * D - N) <= N.
Proof.
  intros HN HD d Hd Hlo Hhi.
  assert (Hmx : 0 < N / D).
  { pose proof (Z.div_pos N D HN HD). unfold d in Hd.
    destruct (N / D) as [|p|p]; cbn in Hd; lia. }
  destruct (Zdigits2_bounds (N / D) Hmx) as [Hb _]. fold d in Hb.
  set (n := d - 53) in *.
  assert (Hn : 0 <= n) by lia.
  assert (Hpn : 0 < 2 ^ n) by (apply Z.pow_pos_nonneg; lia).
  set (D' := D * 2 ^ n).
  assert (HD' : 0 < D') by (unfold D'; nia).
  (* first shift *)
  assert (H1 : shr_fexp 53 1024 (N / D) ex (loc_of N D) = (rec_of N D', ex + n)).
  { unfold shr_fexp. rewrite fexp64. fold d. fold (rec_of N D).
    replace (Z.max (d + ex - 53) (-1074) - ex) with n by lia.
    rewrite shr_rec_of by assumption. replace (Z.max 0 n) with n by lia. reflexivity. }
  (* the shifted mantissa has exactly 53 bits *)
  assert (Hm1 : 2 ^ 52 <= N / D' < 2 ^ 53).
  { unfold D'. rewrite <- Z.div_div by lia.
    assert (E1 : 2 ^ (d - 1) = 2 ^ 52 * 2 ^ n).
    { rewrite <- Z.pow_add_r by lia. f_equal. lia. }
    assert (E2 : 2 ^ d = 2 ^ 53 * 2 ^ n).
    { rewrite <- Z.pow_add_r by lia. f_equal. lia. }
    split.
    - apply Z.div_le_lower_bound; lia.
    - apply Z.div_lt_upper_bound; lia. }
  destruct (round_nearest_even_near N D' HN HD') as [Hcase Hnear].
  set (mr := round_nearest_even (N / D') (loc_of N D')) in *.
  pose proof (Z.div_mod N D' ltac:(lia)) as EN.
  pose proof (Z.mod_pos_bound N D' HD') as BN.
  assert (Hmr : 2 ^ 52 <= mr <= 2 ^ 53) by lia.
  unfold binary_round_aux. rewrite H1, shr_m_rec_of, loc_of_rec_of. fold mr.
  unfold shr_fexp. rewrite fexp64, shr_record_of_loc_exact.
  rewrite shr_rec_of by lia.
  destruct (Z.eq_dec mr (2 ^ 53)) as [Etop | Ntop].
  - (* the increment carried into a 54th bit *)
    assert (Hdig : Zdigits2 mr = 54).
    { apply Zdigits2_unique; [|lia]. rewrite Etop. change (54 - 1) with 53.
      split; [lia|]. apply Z.pow_lt_mono_r; lia. }
    rewrite Hdig.
    replace (Z.max 0 (Z.max (54 + (ex + n) - 53) (-1074) - (ex + n))) with 1 by lia.
    rewrite shr_m_rec_of. rewrite Etop.
    change (2 ^ 53 / (1 * 2 ^ 1)) with (Zpos (Z.to_pos (2 ^ 52))).
    cbv iota.
    destruct (Z.leb_spec (ex + n + 1) (1024 - 53)); [|lia].
    exists (Z.to_pos (2 ^ 52)), (n + 1). split; [f_equal; lia|].
    split; [lia|]. split; [split; [reflexivity | reflexivity]|].
    replace (Zpos (Z.to_pos (2 ^ 52)) * 2 ^ (n + 1) * D) with (mr * D').
    + nia.
    + rewrite Etop. unfold D'. rewrite Z.pow_add_r by lia.
      change (Zpos (Z.to_pos (2 ^ 52))) with (2 ^ 52). change (2 ^ 53) with (2 ^ 52 * 2).
      change (2 ^ 1) with 2. ring.
  - assert (Hdig : Zdigits2 mr = 53).
    { apply Zdigits2_unique; [|lia]. change (53 - 1) with 52. lia. }
    rewrite Hdig.
    replace (Z.max 0 (Z.max (53 + (ex + n) - 53) (-1074) - (ex + n))) with 0 by lia.
    rewrite shr_m_rec_of. change (1 * 2 ^ 0) with 1. rewrite Z.div_1_r.
    destruct mr as [|p|p] eqn:Emr; try lia.
    destruct (Z.leb_spec (ex + n + 0) (1024 - 53)); [|lia].
    exists p, n. split; [f_equal; lia|].
    split; [lia|]. split; [lia|].
    replace (Zpos p * 2 ^ n * D) with (Zpos p * D') by (unfold D'; ring).
    nia.
Qed.

Lemma new_location_loc_of N D :
  0 <= N -> 0 < D -> new_location D (N mod D) = loc_of N D.
Proof.
  intros HN HD. unfold new_location, new_location_even, new_location_odd, loc_of.
  pose proof (Z.mod_pos_bound N D HD) as B.
  set (r := N mod D) in *.
  destruct (Z.even D) eqn:Ev; destruct (Z.eqb_spec r 0); try reflexivity.
  f_equal.
  assert (Hodd : Z.odd D = true) by (rewrite <- Z.negb_even, Ev; reflexivity).
  apply Z.odd_spec in Hodd. destruct Hodd as [t Ht].
  destruct (Z.compare_spec (2 * r + 1) D); destruct (Z.compare_spec (2 * r) D);
    try reflexivity; lia.
Qed.

Lemma Z_div_eucl_div_mod a b : Z.div_eucl a b = (a / b, a mod b).
Proof. unfold Z.div, Z.modulo. destruct (Z.div_eucl a b). reflexivity. Qed.


(** The quotient of two positive ints below [2^53]: a normal number
    [m * 2^(k - s)] with [|m * 2^(k - s) * b - a| <= a * 2^-53]. *)
Lemma div_pos_spec (a b : positive) :
  Zpos a < 2 ^ 53 -> Zpos b < 2 ^ 53 ->
  exists m k s,
    div (S754_finite false a 0) (S754_finite false b 0) = S754_finite false m (k - s) /\
    0 <= k <= 2 /\ 1 <= s <= 105 /\
    2 ^ 52 <= Zpos m < 2 ^ 53 /\
    2 ^ 53 * Z.abs (Zpos m * 2 ^ k * Zpos b - Zpos a * 2 ^ s) <= Zpos a * 2 ^ s.
Proof.
  intros Ha Hb.
  destruct (Zdigits2_bounds (Zpos a) ltac:(lia)) as [Ba Pa].
  destruct (Zdigits2_bounds (Zpos b) ltac:(lia)) as [Bb Pb].
  set (d1 := Zdigits2 (Zpos a)) in *. set (d2 := Zdigits2 (Zpos b)) in *.
  assert (Hd1 : d1 <= 53).
  { destruct (Z_le_gt_dec d1 53); [assumption|].
    assert (2 ^ 53 <= 2 ^ (d1 - 1)) by (apply Z.pow_le_mono_r; lia). lia. }
  assert (Hd2 : d2 <= 53).
  { destruct (Z_le_gt_dec d2 53); [assumption|].
    assert (2 ^ 53 <= 2 ^ (d2 - 1)) by (apply Z.pow_le_mono_r; lia). lia. }
  set (s := 53 + d2 - d1).
  assert (Hs : 1 <= s <= 105) by lia.
  set (N := Zpos a * 2 ^ s).
  assert (Hps : 0 < 2 ^ s) by (apply Z.pow_pos_nonneg; lia).
  assert (HN : 0 <= N) by (unfold N; nia).
  assert (Hcore : SFdiv_core_binary 53 1024 (Zpos a) 0 (Zpos b) 0 =
                  (N / Zpos b, - s, loc_of N (Zpos b))).
  { unfold SFdiv_core_binary. fold d1 d2. rewrite fexp64.
    replace (Z.min (Z.max (d1 + 0 - (d2 + 0) - 53) (-1074)) (0 - 0)) with (- s) by lia.
    replace (0 - 0 - - s) with s by lia.
    destruct s as [|ps|ps] eqn:Es; try lia.
    rewrite Z.shiftl_mul_pow2 by lia. fold N.
    rewrite Z_div_eucl_div_mod, new_location_loc_of by lia. reflexivity. }
  (* the quotient has 53 or 54 bits *)
  assert (Hq : 2 ^ 52 <= N / Zpos b < 2 ^ 54).
  { assert (E1 : 2 ^ (d1 - 1) * 2 ^ s = 2 ^ 52 * 2 ^ d2).
    { rewrite <- !Z.pow_add_r by lia. f_equal. lia. }
    assert (E2 : 2 ^ d1 * 2 ^ s = 2 ^ 54 * 2 ^ (d2 - 1)).
    { rewrite <- !Z.pow_add_r by lia. f_equal. lia. }
    split.
    - apply Z.div_le_lower_bound; [lia|]. unfold N. nia.
    - apply Z.div_lt_upper_bound; [lia|]. unfold N. nia. }
  assert (Hdq : 53 <= Zdigits2 (N / Zpos b) <= 54).
  { destruct (Zdigits2_bounds (N / Zpos b) ltac:(lia)) as [Bq Pq].
    set (d := Zdigits2 (N / Zpos b)) in *. split.
    - destruct (Z_le_gt_dec 53 d); [assumption|].
      assert (2 ^ d <= 2 ^ 52) by (apply Z.pow_le_mono_r; lia). lia.
    - destruct (Z_le_gt_dec d 54); [assumption|].
      assert (2 ^ 54 <= 2 ^ (d - 1)) by (apply Z.pow_le_mono_r; lia). lia. }
  destruct (binary_round_aux_normal N (Zpos b) (- s) HN ltac:(lia))
    as (m & k & Hr & Hk & Hm & Herr); try lia.
  exists m, k, s. unfold div, prec, emax, SFdiv. rewrite Hcore. cbn [xorb].
  rewrite Hr. split; [f_equal; lia|]. repeat split; lia.
Qed.

Lemma iter_xO_pow2 (h d : positive) : Zpos (Pos.iter xO h d) = Zpos h * 2 ^ Zpos d.
Proof.
  induction d as [|d IH] using Pos.peano_ind.
  - cbn [Pos.iter]. change (2 ^ 1) with 2. lia.
  - rewrite Pos.iter_succ, Pos2Z.inj_xO, IH, Pos2Z.inj_succ, Z.pow_succ_r by lia. ring.
Qed.


(** A positive int below [2^53] converts exactly; the significand is
    shifted up to 53 bits. *)
Lemma of_int_pos_spec (h : positive) :
  Zpos h < 2 ^ 53 ->
  exists m c,
    of_int (Zpos h) = S754_finite false m (- c) /\
    0 <= c <= 52 /\ Zpos m = Zpos h * 2 ^ c /\ 2 ^ 52 <= Zpos m < 2 ^ 53.
Proof.
  intros Hh.
  destruct (Zdigits2_bounds (Zpos h) ltac:(lia)) as [Bh Ph].
  cbn [Zdigits2] in Bh, Ph. set (dh := Zpos (digits2_pos h)) in *.
  assert (Hdh : dh <= 53).
  { destruct (Z_le_gt_dec dh 53); [assumption|].
    assert (2 ^ 53 <= 2 ^ (dh - 1)) by (apply Z.pow_le_mono_r; lia). lia. }
  unfold of_int, prec, emax, binary_normalize, binary_round. fold dh. rewrite fexp64.
  replace (Z.max (dh + 0 - 53) (-1074)) with (dh - 53) by lia.
  unfold shl_align. destruct (dh - 53 - 0) as [|d|d] eqn:Ed; try lia.
  - (* already 53 bits *)
    rewrite binary_round_aux_fits; cbn [Zdigits2]; fold dh; try lia.
    exists h, 0. change (2 ^ 0) with 1. cbn [Z.to_pos Z.opp].
    assert (E : 2 ^ (dh - 1) = 2 ^ 52) by (f_equal; lia).
    repeat split; lia.
  - set (c := Zpos d) in *.
    assert (Hc : c = 53 - dh) by lia.
    pose proof (iter_xO_pow2 h d) as Hmz. fold c in Hmz.
    set (mz := Pos.iter xO h d) in *.
    assert (Hpc : 0 < 2 ^ c) by (apply Z.pow_pos_nonneg; lia).
    assert (E1 : 2 ^ (dh - 1) * 2 ^ c = 2 ^ 52).
    { rewrite <- Z.pow_add_r by lia. f_equal. lia. }
    assert (E2 : 2 ^ dh * 2 ^ c = 2 ^ 53).
    { rewrite <- Z.pow_add_r by lia. f_equal. lia. }
    assert (Hmzb : 2 ^ 52 <= Zpos mz < 2 ^ 53) by nia.
    assert (Hdig : Zdigits2 (Zpos mz) = 53).
    { apply Zdigits2_unique; [exact Hmzb | lia]. }
    rewrite binary_round_aux_fits; rewrite ?Hdig; try lia.
    exists mz, c. cbn [Z.to_pos]. split; [f_equal; lia|]. repeat split; lia.
Qed.

(** The product of two normal numbers: the exact product of the
    significands, rounded with relative error at most [2^-53]. *)
Lemma mul_pos_spec (mx my : positive) (ex ey : Z) :
  2 ^ 52 <= Zpos mx < 2 ^ 53 -> 2 ^ 52 <= Zpos my < 2 ^ 53 ->
  -1000 <= ex + ey <= 800 ->
  exists m k,
    mul (S754_finite false mx ex) (S754_finite false my ey)
      = S754_finite false m (ex + ey + k) /\
    52 <= k <= 54 /\
    2 ^ 52 <= Zpos m < 2 ^ 53 /\
    2 ^ 53 * Z.abs (Zpos m * 2 ^ k - Zpos mx * Zpos my) <= Zpos mx * Zpos my.
Proof.
  intros Hx Hy He.
  set (N := Zpos mx * Zpos my).
  assert (HN : 2 ^ 104 <= N < 2 ^ 106).
  { change (2 ^ 104) with (2 ^ 52 * 2 ^ 52). change (2 ^ 106) with (2 ^ 53 * 2 ^ 53).
    unfold N. nia. }
  assert (Hd : 105 <= Zdigits2 (N / 1) <= 106).
  { rewrite Z.div_1_r.
    destruct (Zdigits2_bounds N ltac:(lia)) as [Bq Pq].
    set (d := Zdigits2 N) in *. split.
    - destruct (Z_le_gt_dec 105 d); [assumption|].
      assert (2 ^ d <= 2 ^ 104) by (apply Z.pow_le_mono_r; lia). lia.
    - destruct (Z_le_gt_dec d 106); [assumption|].
      assert (2 ^ 106 <= 2 ^ (d - 1)) by (apply Z.pow_le_mono_r; lia). lia. }
  destruct (binary_round_aux_normal N 1 (ex + ey) ltac:(lia) ltac:(lia))
    as (m & k & Hr & Hk & Hm & Herr); try lia.
  exists m, k. unfold mul, prec, emax, SFmul. cbn [xorb].
  change (Zpos (mx * my)) with N.
  replace N with (N / 1) at 1 by apply Z.div_1_r.
  replace loc_Exact with (loc_of N 1)
    by (unfold loc_of; rewrite Z.mod_1_r; reflexivity).
  rewrite Hr. rewrite Z.mul_1_r in Herr. repeat split; lia.
Qed.

Lemma le_mul_diag (a b : Z) : 0 <= a -> 1 <= b -> a <= a * b.
Proof. intros. nia. Qed.

Lemma small_against_square (U V c : Z) : 0 < V -> 4 * V <= U -> 0 <= c <= 1 ->
  (2 * U + c) * V < U * U /\ (2 * U - c) * V < U * U.
Proof. intros. split; nia. Qed.

(** Two relative errors of at most [1/U] each around [a * h / w] cannot move
    the integer part by more than one, and only downwards. *)
Lemma two_roundings_floor (U a h w P B X Y : Z) :
  0 < a -> 0 < h -> 0 < w -> 0 < X -> 0 < Y ->
  4 * (a * h + w) <= U ->
  U * Z.abs (P - h * X * B) <= h * X * B ->
  U * Z.abs (B * w - a * Y) <= a * Y ->
  let K := (a * h) / w in
  let nh := P / (X * Y) in
  K - 1 <= nh <= K /\ ((a * h) mod w <> 0 -> nh = K).
Proof.
  intros Ha Hh Hw HX HY HU H1 H2 K nh.
  set (V := a * h) in *. set (S := h * X * B) in *. set (T := X * Y).
  assert (HT : 0 < T) by (unfold T; nia).
  assert (HV : 0 < V) by (unfold V; nia).
  pose proof (Z.div_mod V w ltac:(lia)) as EV.
  pose proof (Z.mod_pos_bound V w Hw) as BV.
  fold K in EV. set (r := V mod w) in *.
  assert (HK : 0 <= K) by (apply Z.div_pos; lia).
  assert (HU0 : 0 < U) by lia.
  (* the two error bounds without absolute values *)
  assert (P1 : (U - 1) * S <= U * P <= (U + 1) * S).
  { destruct (Z.abs_spec (P - S)) as [[Hs E] | [Hs E]]; rewrite E in H1; nia. }
  assert (P2 : (U - 1) * (a * Y) <= U * (B * w) <= (U + 1) * (a * Y)).
  { assert (0 < a * Y) by nia.
    destruct (Z.abs_spec (B * w - a * Y)) as [[Hs E] | [Hs E]]; rewrite E in H2; nia. }
  assert (HS : 0 <= S).
  { pose proof (Z.abs_nonneg (P - S)). nia. }
  assert (HhX : 0 < h * X) by nia.
  (* chained: U^2 * P * w against V * T *)
  assert (ESw : U * (S * w) = (h * X) * (U * (B * w))) by (unfold S; ring).
  assert (EVT : (h * X) * (a * Y) = V * T) by (unfold V, T; ring).
  assert (Q2 : (U - 1) * (V * T) <= U * (S * w) <= (U + 1) * (V * T)).
  { rewrite ESw, <- EVT. split.
    - replace ((U - 1) * (h * X * (a * Y))) with ((h * X) * ((U - 1) * (a * Y))) by ring.
      apply Z.mul_le_mono_nonneg_l; lia.
    - replace ((U + 1) * (h * X * (a * Y))) with ((h * X) * ((U + 1) * (a * Y))) by ring.
      apply Z.mul_le_mono_nonneg_l; lia. }
  assert (HVT : 0 < V * T) by nia.
  assert (Q3 : (U - 1) * ((U - 1) * (V * T)) <= U * (U * (P * w))
               <= (U + 1) * ((U + 1) * (V * T))).
  { replace (U * (U * (P * w))) with (U * ((U * P) * w)) by ring. split.
    - apply Z.le_trans with (U * (((U - 1) * S) * w)).
      + replace (U * ((U - 1) * S * w)) with ((U - 1) * (U * (S * w))) by ring.
        apply Z.mul_le_mono_nonneg_l; lia.
      + apply Z.mul_le_mono_nonneg_l; [lia|].
        apply Z.mul_le_mono_nonneg_r; lia.
    - apply Z.le_trans with (U * (((U + 1) * S) * w)).
      + apply Z.mul_le_mono_nonneg_l; [lia|].
        apply Z.mul_le_mono_nonneg_r; lia.
      + replace (U * ((U + 1) * S * w)) with ((U + 1) * (U * (S * w))) by ring.
        apply Z.mul_le_mono_nonneg_l; lia. }
  set (G := V * T) in *. set (L := U * (U * (P * w))) in *.
  (* upper bound: P < (K + 1) * T *)
  assert (Hup : P < (K + 1) * T).
  { destruct (Z_lt_ge_dec P ((K + 1) * T)) as [|Hge]; [assumption | exfalso].
    assert (A1 : U * (U * (((K + 1) * T) * w)) <= L).
    { unfold L. apply Z.mul_le_mono_nonneg_l; [lia|].
      apply Z.mul_le_mono_nonneg_l; [lia|].
      apply Z.mul_le_mono_nonneg_r; lia. }
    assert (A2 : (K + 1) * w = V + (w - r)) by lia.
    assert (A3 : U * (U * ((K + 1) * T * w)) = U * U * G + U * U * (w - r) * T).
    { unfold G. replace ((K + 1) * T * w) with (((K + 1) * w) * T) by ring.
      rewrite A2. ring. }
    assert (A4 : (U + 1) * ((U + 1) * G) = U * U * G + (2 * U + 1) * G) by ring.
    assert (A5 : U * U * (w - r) * T <= (2 * U + 1) * G) by lia.
    assert (A6 : (2 * U + 1) * G < U * U * T).
    { unfold G. replace ((2 * U + 1) * (V * T)) with (((2 * U + 1) * V) * T) by ring.
      apply Z.mul_lt_mono_pos_r; [lia|].
      apply (small_against_square U V 1); lia. }
    assert (A7 : U * U * T <= U * U * (w - r) * T).
    { replace (U * U * (w - r) * T) with (U * U * T * (w - r)) by ring.
      apply le_mul_diag; [|lia]. apply Z.mul_nonneg_nonneg; [|lia].
      apply Z.mul_nonneg_nonneg; lia. }
    lia. }
  (* lower bounds *)
  assert (Hlo : (K - 1) * T <= P).
  { destruct (Z_le_gt_dec ((K - 1) * T) P) as [|Hlt]; [assumption | exfalso].
    assert (A1 : L <= U * (U * (((K - 1) * T) * w))).
    { unfold L. apply Z.mul_le_mono_nonneg_l; [lia|].
      apply Z.mul_le_mono_nonneg_l; [lia|].
      apply Z.mul_le_mono_nonneg_r; lia. }
    assert (A3 : U * (U * ((K - 1) * T * w)) = U * U * G - U * U * (w + r) * T).
    { unfold G. replace ((K - 1) * T * w) with (((K - 1) * w) * T) by ring.
      replace ((K - 1) * w) with (V - (w + r)) by lia. ring. }
    assert (A4 : (U - 1) * ((U - 1) * G) = U * U * G - (2 * U - 1) * G) by ring.
    assert (A5 : U * U * (w + r) * T <= (2 * U - 1) * G) by lia.
    assert (A6 : (2 * U - 1) * G < U * U * T).
    { unfold G. replace ((2 * U - 1) * (V * T)) with (((2 * U - 1) * V) * T) by ring.
      apply Z.mul_lt_mono_pos_r; [lia|].
      apply (small_against_square U V 1); lia. }
    assert (A7 : U * U * T <= U * U * (w + r) * T).
    { replace (U * U * (w + r) * T) with (U * U * T * (w + r)) by ring.
      apply le_mul_diag; [|lia]. apply Z.mul_nonneg_nonneg; [|lia].
      apply Z.mul_nonneg_nonneg; lia. }
    lia. }
  assert (Hlo' : r <> 0 -> K * T <= P).
  { intros Hr.
    destruct (Z_le_gt_dec (K * T) P) as [|Hlt]; [assumption | exfalso].
    assert (HPT : P <= K * T - 1) by lia.
    assert (A1 : L <= U * (U * ((K * T - 1) * w))).
    { unfold L. apply Z.mul_le_mono_nonneg_l; [lia|].
      apply Z.mul_le_mono_nonneg_l; [lia|].
      apply Z.mul_le_mono_nonneg_r; lia. }
    assert (A3 : U * (U * ((K * T - 1) * w)) = U * U * G - U * U * (r * T + w)).
    { unfold G. replace ((K * T - 1) * w) with ((K * w) * T - w) by ring.
      replace (K * w) with (V - r) by lia. ring. }
    assert (A4 : (U - 1) * ((U - 1) * G) = U * U * G - (2 * U - 1) * G) by ring.
    assert (A5 : U * U * (r * T + w) <= (2 * U - 1) * G) by lia.
    assert (A6 : (2 * U - 1) * G < U * U * T).
    { unfold G. replace ((2 * U - 1) * (V * T)) with (((2 * U - 1) * V) * T) by ring.
      apply Z.mul_lt_mono_pos_r; [lia|].
      apply (small_against_square U V 1); lia. }
    assert (A7 : U * U * T <= U * U * (r * T + w)).
    { apply Z.mul_le_mono_nonneg_l; [apply Z.mul_nonneg_nonneg; lia|].
      assert (0 <= r * T) by (apply Z.mul_nonneg_nonneg; lia).
      assert (T <= T * r) by (apply le_mul_diag; lia). lia. }
    lia. }
  fold T in nh. unfold nh.
  split; [split|].
  - apply Z.div_le_lower_bound; lia.
  - assert (P / T < K + 1); [|lia]. apply Z.div_lt_upper_bound; lia.
  - intros Hr. specialize (Hlo' Hr).
    assert (K <= P / T) by (apply Z.div_le_lower_bound; lia).
    assert (P / T < K + 1); [|lia]. apply Z.div_lt_upper_bound; lia.
Qed.

End Binary64Facts.

(** ** The new height *)

(** The integer part of [m * 2^e] as a quotient of integers. *)
Lemma trunc_pos_div (m : positive) (e j t : Z) :
  0 <= j -> 0 <= t -> e = j - t ->
  Binary64.trunc (S754_finite false m e) = (Zpos m * 2 ^ j) / 2 ^ t.
Proof.
  intros Hj Ht He. cbn [Binary64.trunc].
  assert (Hpj : 0 < 2 ^ j) by (apply Z.pow_pos_nonneg; lia).
  destruct (Z.leb_spec 0 e) as [Hpos | Hneg].
  - rewrite Z.shiftl_mul_pow2 by lia.
    replace j with (e + t) by lia. rewrite Z.pow_add_r by lia.
    rewrite Z.mul_assoc, Z.div_mul; [reflexivity|].
    apply Z.pow_nonzero; lia.
  - rewrite Z.shiftr_div_pow2 by lia.
    replace t with (- e + j) by lia. rewrite Z.pow_add_r by lia.
    rewrite Z.div_mul_cancel_r; [reflexivity| |]; apply Z.pow_nonzero; lia.
Qed.

(** What [int(h * (512 / w))] is for image sizes: no exception, and the
    exact [floor(512 * h / w)] except that it may fall one short when
    [512 * h / w] is itself an integer. *)
Lemma new_height_of_spec (w h : Z) :
  512 < w -> 0 < h -> 512 * h + w <= 2 ^ 51 ->
  exists nh,
    new_height_of w h = Py.Normal nh /\
    (512 * h) / w - 1 <= nh <= (512 * h) / w /\
    ((512 * h) mod w <> 0 -> nh = (512 * h) / w).
Proof.
  intros Hw Hh Hsmall.
  assert (Hw53 : w < 2 ^ 53) by lia.
  assert (Hh53 : h < 2 ^ 53) by lia.
  destruct w as [|pw|pw]; try lia. destruct h as [|ph|ph]; try lia.
  destruct (Binary64Facts.div_pos_spec 512 pw ltac:(lia) Hw53)
    as (mr & k1 & s & Hdiv & Hk1 & Hs & Hmr & Herr1).
  destruct (Binary64Facts.of_int_pos_spec ph Hh53) as (mh & c & Hof & Hc & Hmh & Hmhb).
  destruct (Binary64Facts.mul_pos_spec mh mr (- c) (k1 - s) Hmhb Hmr ltac:(lia))
    as (mp & k2 & Hmul & Hk2 & Hmp & Herr2).
  unfold new_height_of, Binary64.truediv, Binary64.int_mul.
  cbn [Z.eqb Binary64.exact]. rewrite Hdiv. cbn [Binary64.is_finite].
  rewrite Hof. cbn [Binary64.is_finite]. rewrite Hmul. cbn [Binary64.to_int].
  eexists. split; [reflexivity|].
  rewrite (trunc_pos_div mp _ (k1 + k2) (c + s)) by lia.
  assert (Hp1 : 0 < 2 ^ k1) by (apply Z.pow_pos_nonneg; lia).
  assert (Hpc : 0 < 2 ^ c) by (apply Z.pow_pos_nonneg; lia).
  assert (Hps : 0 < 2 ^ s) by (apply Z.pow_pos_nonneg; lia).
  rewrite (Z.pow_add_r 2 c s) by lia.
  apply (Binary64Facts.two_roundings_floor (2 ^ 53) 512 (Zpos ph) (Zpos pw)
           (Zpos mp * 2 ^ (k1 + k2)) (Zpos mr * 2 ^ k1) (2 ^ c) (2 ^ s));
    try lia.
  rewrite Hmh in Herr2.
  replace (Zpos mp * 2 ^ (k1 + k2) - Zpos ph * 2 ^ c * (Zpos mr * 2 ^ k1))
    with ((Zpos mp * 2 ^ k2 - Zpos ph * 2 ^ c * Zpos mr) * 2 ^ k1)
    by (rewrite Z.pow_add_r by lia; ring).
  rewrite Z.abs_mul, (Z.abs_eq (2 ^ k1)) by lia.
  replace (Zpos ph * 2 ^ c * (Zpos mr * 2 ^ k1))
    with ((Zpos ph * 2 ^ c * Zpos mr) * 2 ^ k1) by ring.
  rewrite Z.mul_assoc. apply Z.mul_le_mono_nonneg_r; lia.
Qed.

(** ** The script, run *)

(** Unfolds the script and the monad, and nothing of the libraries. *)
Ltac run_cbv :=
  cbv [run optimize_logo try_except body handlers from_PIL_import_Image import_os
       os_path_exists Image_open Image_resize Image_save print emit write_fs lift ask
       get raise ret bind mbind mret M_bind M_ret fs trace import_PIL open_fault
       resize_fault save_fault size width height fst snd no_fault].

(** Unfolds, then rewrites the content of the path as often as it is read. *)
Ltac run_with Hf := run_cbv; rewrite ?Hf; run_cbv; rewrite ?Hf; run_cbv.

Lemma app_cons_assoc {A} (l : list A) x l' :
  ((l ++ [x]) ++ l')%list = (l ++ x :: l')%list.
Proof. rewrite <- app_assoc. reflexivity. Qed.

Lemma console_app t1 t2 : console (t1 ++ t2) = (console t1 ++ console t2)%list.
Proof. unfold console. apply flat_map_app. Qed.

Lemma pillow_size_small img :
  pillow_size img -> 512 * height img + width img <= 2 ^ 51.
Proof.
  unfold pillow_size. intros [[_ Hw] [_ Hh]].
  change (2 ^ 31) with 2147483648 in *. change (2 ^ 51) with 2251799813685248. lia.
Qed.

Lemma pillow_opens_size img : pillow_opens img -> pillow_size img.
Proof.
  unfold pillow_opens, pillow_size. intros (Hw & Hh & Hp).
  change (2 ^ 31) with 2147483648. nia.
Qed.

(** *** The [try] statement *)

(** The two [except] clauses, read off the outcome of the suite. *)
Lemma run_try env st :
  run env st =
  match body env st with
  | (Py.Normal a, st') => (Py.Normal a, st')
  | (Py.Raised e, st') =>
      if Py.isinstance e Py.ImportError
      then (Py.Normal tt, mkState (fs st') (trace st' ++ [Stdout "Pillow not installed"]))
      else if Py.isinstance e Py.Exception
      then (Py.Normal tt,
            mkState (fs st') (trace st' ++ [Stdout ("Error: " ++ Py.exn_str e)]))
      else (Py.Raised e, st')
  end.
Proof.
  unfold run, optimize_logo, try_except, handlers.
  destruct (body env st) as [[a|e] st']; [reflexivity|].
  destruct (Py.isinstance e Py.ImportError); [reflexivity|].
  destruct (Py.isinstance e Py.Exception); reflexivity.
Qed.

(** No handler touches a file. *)
Lemma processed_fs env st : fs (processed env st) = fs (snd (body env st)).
Proof.
  unfold processed. rewrite run_try.
  destruct (body env st) as [[a|e] st']; [reflexivity|].
  destruct (Py.isinstance e Py.ImportError); [reflexivity|].
  destruct (Py.isinstance e Py.Exception); reflexivity.
Qed.

(** A handler adds at most one printed line. *)
Lemma processed_trace env st :
  exists extra,
    trace (processed env st) = (trace (snd (body env st)) ++ extra)%list /\
    existsb is_save extra = false.
Proof.
  unfold processed. rewrite run_try.
  destruct (body env st) as [[a|e] st'];
    [exists []; split; [symmetry; apply app_nil_r | reflexivity]|].
  destruct (Py.isinstance e Py.ImportError); [eexists; split; reflexivity|].
  destruct (Py.isinstance e Py.Exception); [eexists; split; reflexivity|].
  exists []. split; [symmetry; apply app_nil_r | reflexivity].
Qed.

(** *** The suite of the [try], branch by branch *)

Lemma body_import_fault env st e :
  import_PIL env = Some e -> body env st = (Py.Raised e, st).
Proof.
  intros Hi. destruct env as [ip op rf sf], st as [f t]. cbn in Hi. subst ip.
  reflexivity.
Qed.

Lemma body_missing env f t :
  import_PIL env = None -> f !! path = None ->
  body env (mkState f t) = (Py.Normal tt, mkState f (t ++ [PathExists path])).
Proof.
  intros Hi Hf. destruct env as [ip op rf sf]. cbn in Hi. subst ip.
  run_with Hf. reflexivity.
Qed.

Lemma body_open_fault env f t file :
  import_PIL env = None -> f !! path = Some file ->
  (open_fault env <> None \/ file = NotAnImage) ->
  exists e, body env (mkState f t)
            = (Py.Raised e, mkState f (t ++ [PathExists path; ImageOpen path])).
Proof.
  intros Hi Hf Hopen. destruct env as [ip op rf sf]. cbn in Hi, Hopen. subst ip.
  destruct op as [e|].
  - exists e. run_with Hf. rewrite !app_cons_assoc. reflexivity.
  - destruct Hopen as [Hopen | ->]; [congruence|].
    eexists. run_with Hf. rewrite !app_cons_assoc. reflexivity.
Qed.

(** Once the file is open: every way the rest of the suite can go. *)
Lemma body_image env f t img :
  import_PIL env = None -> open_fault env = None ->
  f !! path = Some (ImageFile img) ->
  let opened := [PathExists path; ImageOpen path;
                 Stdout ("Original size: " ++ Py.str_pair (size img))] in
  body env (mkState f t) =
  if 512 <? width img then
    match new_height_of (width img) (height img) with
    | Py.Raised e => (Py.Raised e, mkState f (t ++ opened))
    | Py.Normal nh =>
        match resize_fault env with
        | Some e =>
            (Py.Raised e,
             mkState f (t ++ opened ++ [ImageResize img (512, nh) LANCZOS]))
        | None =>
            if nh <? 1 then
              (Py.Raised empty_size,
               mkState f (t ++ opened ++ [ImageResize img (512, nh) LANCZOS]))
            else
              match save_fault env with
              | Some (e, remains) =>
                  (Py.Raised e,
                   mkState (failed_save remains f)
                     (t ++ opened ++ [ImageResize img (512, nh) LANCZOS;
                                       ImageSave (mkImage 512 nh) path true 85]))
              | None =>
                  (Py.Normal tt,
                   mkState (<[path := ImageFile (mkImage 512 nh)]> f)
                     (t ++ resize_events img nh))
              end
        end
    end
  else
    match save_fault env with
    | Some (e, remains) =>
        (Py.Raised e,
         mkState (failed_save remains f)
           (t ++ opened ++ [Stdout "Image small enough, skipping resize.";
                             ImageSave img path true 85]))
    | None =>
        (Py.Normal tt, mkState (<[path := ImageFile img]> f) (t ++ small_events img))
    end.
Proof.
  intros Hi Ho Hf opened. subst opened.
  destruct env as [ip op rf sf], img as [w h]. cbn in Hi, Ho. subst ip op.
  unfold new_height_of, failed_save.
  run_with Hf.
  destruct (512 <? w).
  - destruct (Binary64.truediv 512 w) as [ratio|e]; [|rewrite !app_cons_assoc; reflexivity].
    destruct (Binary64.int_mul h ratio) as [x|e]; [|rewrite !app_cons_assoc; reflexivity].
    destruct (Binary64.to_int x) as [nh|e]; [|rewrite !app_cons_assoc; reflexivity].
    run_cbv.
    destruct rf as [e|]; [rewrite !app_cons_assoc; reflexivity|].
    change (512 <? 1) with false. cbn [orb].
    destruct (nh <? 1); run_cbv; [rewrite !app_cons_assoc; reflexivity|].
    destruct sf as [[e [x'|]]|]; rewrite !app_cons_assoc; reflexivity.
  - destruct sf as [[e [x'|]]|]; rewrite !app_cons_assoc; reflexivity.
Qed.

(** Files change in [save] and nowhere else: a suite that never reaches a
    [save] leaves the file system as it found it. *)
Lemma body_writes_in_save env f t :
  exists tail,
    trace (snd (body env (mkState f t))) = (t ++ tail)%list /\
    (existsb is_save tail = false -> fs (snd (body env (mkState f t))) = f).
Proof.
  destruct (import_PIL env) as [e|] eqn:Hi.
  { rewrite (body_import_fault env _ e Hi). exists []. cbn.
    split; [symmetry; apply app_nil_r | reflexivity]. }
  destruct (f !! path) as [file|] eqn:Hf.
  2:{ rewrite (body_missing env f t Hi Hf). eexists. split; reflexivity. }
  destruct (open_fault env) as [e|] eqn:Ho.
  { destruct (body_open_fault env f t file Hi Hf) as [e' Hb]; [left; congruence|].
    rewrite Hb. eexists. split; reflexivity. }
  destruct file as [img|].
  2:{ destruct (body_open_fault env f t NotAnImage Hi Hf) as [e' Hb]; [right; reflexivity|].
      rewrite Hb. eexists. split; reflexivity. }
  rewrite (body_image env f t img Hi Ho Hf).
  destruct (512 <? width img).
  - destruct (new_height_of (width img) (height img)) as [nh|e];
      [|eexists; split; reflexivity].
    destruct (resize_fault env) as [e|]; [eexists; split; reflexivity|].
    destruct (nh <? 1); [eexists; split; reflexivity|].
    destruct (save_fault env) as [[e remains]|];
      (eexists; split; [reflexivity | cbn; discriminate]).
  - destruct (save_fault env) as [[e remains]|];
      (eexists; split; [reflexivity | cbn; discriminate]).
Qed.

Lemma writes_in_save env st :
  exists tail,
    trace (processed env st) = (trace st ++ tail)%list /\
    (existsb is_save tail = false -> fs (processed env st) = fs st).
Proof.
  destruct st as [f t]. cbn [fs trace].
  destruct (body_writes_in_save env f t) as (tail & Ht & Hfs).
  destruct (processed_trace env (mkState f t)) as (extra & Hp & Hns).
  exists (tail ++ extra)%list. rewrite Hp, Ht, processed_fs, app_assoc.
  split; [reflexivity|]. rewrite existsb_app, Hns, orb_false_r. exact Hfs.
Qed.

(** *** Runs in which nothing fails *)

Lemma run_small f t img :
  f !! path = Some (ImageFile img) -> width img <= 512 ->
  run no_fault (mkState f t)
  = (Py.Normal tt, mkState (<[path := ImageFile img]> f) (t ++ small_events img)).
Proof.
  intros Hf Hw. rewrite run_try, (body_image no_fault f t img eq_refl eq_refl Hf).
  destruct (Z.ltb_spec 512 (width img)); [lia | reflexivity].
Qed.

Lemma run_resize f t img nh :
  f !! path = Some (ImageFile img) -> 512 < width img ->
  new_height_of (width img) (height img) = Py.Normal nh -> 1 <= nh ->
  run no_fault (mkState f t)
  = (Py.Normal tt,
     mkState (<[path := ImageFile (mkImage 512 nh)]> f) (t ++ resize_events img nh)).
Proof.
  intros Hf Hw Hnh Hpos.
  rewrite run_try, (body_image no_fault f t img eq_refl eq_refl Hf).
  destruct (Z.ltb_spec 512 (width img)); [|lia]. rewrite Hnh. cbn [resize_fault no_fault].
  destruct (Z.ltb_spec nh 1); [lia | reflexivity].
Qed.

(** The second scenario of the specification: a 256 x 256 logo. *)
Example scenario_256x256 :
  let st' := processed no_fault (start {[ path := ImageFile (mkImage 256 256) ]}) in
  fs st' !! path = Some (ImageFile (mkImage 256 256)) /\
  console (trace st')
  = ["Original size: (256, 256)"; "Image small enough, skipping resize.";
     "Optimized existing image."].
Proof.
  unfold processed, start.
  rewrite (run_small _ [] (mkImage 256 256) (lookup_singleton_eq _ _)) by (cbn; lia).
  split; [apply lookup_insert_eq | reflexivity].
Qed.

(** An exception outside the [Exception] hierarchy is not caught. *)
Example keyboard_interrupt_propagates :
  let env := mkEnv None (Some Py.KeyboardInterrupt) None None in
  let st := start {[ path := ImageFile (mkImage 1024 768) ]} in
  fst (run env st) = Py.Raised Py.KeyboardInterrupt /\
  console (trace (processed env st)) = [].
Proof. vm_compute. repeat split. Qed.

(** A new height that is not 0 is at least 1. *)
Lemma nonempty_resize_pos img nh :
  pillow_size img -> 512 < width img -> nonempty_resize img ->
  new_height_of (width img) (height img) = Py.Normal nh -> 1 <= nh.
Proof.
  intros Hsz Hbig Hne Hnh. specialize (Hne Hbig).
  destruct (new_height_of_spec (width img) (height img) Hbig)
    as (nh' & Hnh' & Hb & Hex); [apply Hsz | apply pillow_size_small, Hsz |].
  rewrite Hnh in Hnh'. injection Hnh' as <-. rewrite Hnh in Hne.
  destruct Hsz as [_ [Hh _]].
  assert (0 <= 512 * height img / width img) by (apply Z.div_pos; lia).
  destruct (Z.eq_dec nh 0) as [-> | Hnz]; [congruence|].
  destruct (Z.eq_dec nh (-1)) as [Hm1 | Hm1]; [|lia]. subst nh.
  assert (Hz : 512 * height img / width img = 0) by lia.
  assert (Hlt : 512 * height img < width img).
  { apply Z.div_small_iff in Hz; lia. }
  rewrite Z.mod_small in Hex by lia. lia.
Qed.

(** ** The claims *)

(** C1, as first stated, fails: a 561 x 561 logo comes out 512 x 511, while
    [floor(561 * 512 / 561)] is 512.  The quotient [512 / 561] is rounded
    down to a binary64 value, the product [561 * ratio] lands just below
    512.0, and [int] truncates. *)
Lemma C1_counterexample :
  fs (processed no_fault (start {[ path := ImageFile (mkImage 561 561) ]})) !! path
  = Some (ImageFile (mkImage 512 511)) /\
  511 <> 561 * 512 / 561.
Proof. split; [vm_compute; reflexivity | vm_compute; discriminate]. Qed.

(** C1 (amended): for an image that Pillow opens and whose resize is not
    asked with height 0, and when no call fails, the file's width after
    processing is [min(original_width, 512)]; if the image is wider than 512
    the new width is exactly 512 and the new height is
    [int(height * (512 / width))] as binary64 arithmetic computes it.  That
    height is [floor(height * 512 / width)], except that it can be one less
    when [width] divides [height * 512]. *)
Theorem C1_width_cap st img :
  fs st !! path = Some (ImageFile img) -> pillow_opens img -> nonempty_resize img ->
  exists img',
    fs (processed no_fault st) !! path = Some (ImageFile img') /\
    width img' = Z.min (width img) 512 /\
    (512 < width img ->
       width img' = 512 /\
       new_height_of (width img) (height img) = Py.Normal (height img') /\
       1 <= height img' /\
       height img * 512 / width img - 1 <= height img' <= height img * 512 / width img /\
       ((height img * 512) mod width img <> 0 ->
          height img' = height img * 512 / width img)).
Proof.
  intros Hf Hop Hne. pose proof (pillow_opens_size img Hop) as Hsz.
  destruct st as [f t]. cbn [fs] in Hf. unfold processed.
  destruct (Z_lt_le_dec 512 (width img)) as [Hbig | Hsmall].
  - destruct (new_height_of_spec (width img) (height img) Hbig)
      as (nh & Hnh & Hb & Hex).
    { apply Hsz. } { apply pillow_size_small, Hsz. }
    rewrite (Z.mul_comm 512) in Hb, Hex.
    pose proof (nonempty_resize_pos img nh Hsz Hbig Hne Hnh) as Hpos.
    rewrite (run_resize f t img nh Hf Hbig Hnh Hpos). cbn [snd fs].
    exists (mkImage 512 nh). cbn [width height].
    split; [apply lookup_insert_eq|]. split; [lia|]. intros _. auto.
  - rewrite (run_small f t img Hf Hsmall). cbn [snd fs].
    exists img. split; [apply lookup_insert_eq|]. split; [lia|]. intros; lia.
Qed.

Lemma C1_witness :
  exists img',
    fs (processed no_fault (start {[ path := ImageFile (mkImage 561 561) ]})) !! path
      = Some (ImageFile img') /\
    width img' = Z.min 561 512 /\
    (512 < 561 ->
       width img' = 512 /\
       new_height_of 561 561 = Py.Normal (height img') /\
       1 <= height img' /\
       561 * 512 / 561 - 1 <= height img' <= 561 * 512 / 561 /\
       ((561 * 512) mod 561 <> 0 -> height img' = 561 * 512 / 561)).
Proof.
  apply (C1_width_cap (start {[ path := ImageFile (mkImage 561 561) ]}) (mkImage 561 561)).
  - reflexivity.
  - unfold pillow_opens. cbn. lia.
  - intros _. vm_compute. discriminate.
Defined.

(** C2: an image at most 512 wide keeps its width and height, and is saved
    again all the same, to the same path, with [optimize=True] and
    [quality=85]. *)
Theorem C2_small_image_resaved st img :
  fs st !! path = Some (ImageFile img) -> width img <= 512 ->
  let st' := processed no_fault st in
  fst (run no_fault st) = Py.Normal tt /\
  fs st' !! path = Some (ImageFile img) /\
  fs st' = <[path := ImageFile img]> (fs st) /\
  trace st' = (trace st ++ small_events img)%list /\
  In (ImageSave img path true 85) (trace st').
Proof.
  intros Hf Hw. destruct st as [f t]. cbn [fs trace] in *.
  unfold processed. rewrite (run_small f t img Hf Hw). cbn [fst snd fs trace].
  split; [reflexivity|]. split; [apply lookup_insert_eq|].
  split; [reflexivity|]. split; [reflexivity|].
  apply in_or_app. right. cbn. auto 10.
Qed.

Lemma C2_witness :
  let st := start {[ path := ImageFile (mkImage 256 256) ]} in
  let st' := processed no_fault st in
  fst (run no_fault st) = Py.Normal tt /\
  fs st' !! path = Some (ImageFile (mkImage 256 256)) /\
  fs st' = <[path := ImageFile (mkImage 256 256)]> (fs st) /\
  trace st' = (trace st ++ small_events (mkImage 256 256))%list /\
  In (ImageSave (mkImage 256 256) path true 85) (trace st').
Proof.
  apply (C2_small_image_resaved (start {[ path := ImageFile (mkImage 256 256) ]})
           (mkImage 256 256)).
  - reflexivity.
  - cbn. lia.
Defined.

(** C3, as first stated, fails: with no file at the path and Pillow not
    installed, the run prints a line. *)
Lemma C3_counterexample :
  (∅ : gmap string File) !! path = None /\
  console (trace (processed no_pillow (start ∅))) = ["Pillow not installed"].
Proof. split; reflexivity. Qed.

(** C3 (amended): when Pillow loads and the path does not exist, the run is
    a silent no-op: it ends normally, changes no file and prints nothing;
    all it does is ask whether the path exists. *)
Theorem C3_missing_file env st :
  import_PIL env = None -> fs st !! path = None ->
  run env st = (Py.Normal tt, mkState (fs st) (trace st ++ [PathExists path])) /\
  fs (processed env st) = fs st /\
  console (trace (processed env st)) = console (trace st).
Proof.
  intros Hi Hf. destruct st as [f t]. cbn [fs trace] in *.
  unfold processed. rewrite run_try, (body_missing env f t Hi Hf). cbn [snd fs trace].
  repeat split. rewrite console_app. cbn. apply app_nil_r.
Qed.

Lemma C3_witness :
  run no_fault (start ∅) = (Py.Normal tt, mkState ∅ [PathExists path]) /\
  fs (processed no_fault (start ∅)) = ∅ /\
  console (trace (processed no_fault (start ∅))) = [].
Proof. apply (C3_missing_file no_fault (start ∅)); reflexivity. Defined.

(** C4, as first stated, fails twice.  The fault raised by the first
    statement of the sequence when Pillow is missing is an [ImportError]: it
    is caught, but what is printed is not of the form "Error: ...".  And a
    [KeyboardInterrupt] raised while the file is opened is not caught at
    all: nothing is printed for it and it leaves the script unhandled. *)
Lemma C4_counterexample :
  (body no_pillow (start ∅)
     = (Py.Raised (Py.ModuleNotFoundError "No module named 'PIL'"), start ∅) /\
   run no_pillow (start ∅) = (Py.Normal tt, mkState ∅ [Stdout "Pillow not installed"]) /\
   String.prefix "Error: " "Pillow not installed" = false) /\
  (let st := start {[ path := ImageFile (mkImage 1024 768) ]} in
   fst (run interrupted st) = Py.Raised Py.KeyboardInterrupt /\
   console (trace (processed interrupted st)) = []).
Proof. split; [repeat split | vm_compute; split; reflexivity]. Qed.

(** C4 (amended): a fault raised in the sequence whose class derives from
    [Exception] but not from [ImportError] is caught and turned into the one
    line "Error: " followed by its description, and the program ends
    normally with status 0.  A fault whose class derives from [ImportError]
    is caught too and reported as "Pillow not installed".  Only an exception
    outside the [Exception] hierarchy goes on unhandled, out of the script;
    what the interpreter then does with it is not stated. *)
Theorem C4_fault_absorption env st e st1 :
  body env st = (Py.Raised e, st1) ->
  (Py.isinstance e Py.ImportError = false -> Py.isinstance e Py.Exception = true ->
     run env st
       = (Py.Normal tt,
          mkState (fs st1) (trace st1 ++ [Stdout ("Error: " ++ Py.exn_str e)]))
     /\ exit_status (fst (run env st)) = Some 0) /\
  (Py.isinstance e Py.ImportError = true ->
     run env st
       = (Py.Normal tt, mkState (fs st1) (trace st1 ++ [Stdout "Pillow not installed"]))
     /\ exit_status (fst (run env st)) = Some 0) /\
  (Py.isinstance e Py.ImportError = false -> Py.isinstance e Py.Exception = false ->
     run env st = (Py.Raised e, st1)).
Proof.
  intros Hb. rewrite run_try, Hb.
  repeat split; intros;
    repeat match goal with H : Py.isinstance _ _ = _ |- _ => rewrite H end;
    reflexivity.
Qed.

Lemma C4_witness :
  body no_fault corrupt_logo = (Py.Raised cannot_identify, corrupt_logo_opened) /\
  run no_fault corrupt_logo
  = (Py.Normal tt,
     mkState (fs corrupt_logo_opened)
       (trace corrupt_logo_opened ++ [Stdout ("Error: " ++ Py.exn_str cannot_identify)]))
  /\ exit_status (fst (run no_fault corrupt_logo)) = Some 0.
Proof.
  assert (Hb : body no_fault corrupt_logo = (Py.Raised cannot_identify, corrupt_logo_opened))
    by (vm_compute; reflexivity).
  split; [exact Hb|].
  exact (proj1 (C4_fault_absorption no_fault corrupt_logo cannot_identify
                  corrupt_logo_opened Hb) eq_refl eq_refl).
Defined.

(** C5: when Pillow cannot be loaded, the run prints the one line
    "Pillow not installed", ends normally, and has not so much as looked at
    the file system. *)
Theorem C5_pillow_missing env st e :
  import_PIL env = Some e -> Py.isinstance e Py.ImportError = true ->
  run env st
  = (Py.Normal tt, mkState (fs st) (trace st ++ [Stdout "Pillow not installed"])).
Proof.
  intros Hi He. rewrite run_try, (body_import_fault env st e Hi), He. reflexivity.
Qed.

Lemma C5_witness :
  run no_pillow (start {[ path := ImageFile (mkImage 1024 768) ]})
  = (Py.Normal tt,
     mkState {[ path := ImageFile (mkImage 1024 768) ]} [Stdout "Pillow not installed"]).
Proof.
  exact (C5_pillow_missing no_pillow (start {[ path := ImageFile (mkImage 1024 768) ]})
           (Py.ModuleNotFoundError "No module named 'PIL'") eq_refl eq_refl).
Defined.




(** C7: a 1024 x 768 logo becomes 512 x 384, and the console shows exactly
    "Original size: (1024, 768)" and then "Resized to: (512, 384)". *)
Theorem C7_scenario_1024x768 (files : gmap string File) :
  files !! path = Some (ImageFile (mkImage 1024 768)) ->
  let st' := processed no_fault (start files) in
  fs st' !! path = Some (ImageFile (mkImage 512 384)) /\
  console (trace st') = ["Original size: (1024, 768)"; "Resized to: (512, 384)"].
Proof.
  intros Hf. unfold processed, start.
  rewrite (run_resize files [] (mkImage 1024 768) 384 Hf);
    [|cbn; lia | reflexivity | lia].
  cbn [snd fs trace]. split; [apply lookup_insert_eq | reflexivity].
Qed.

Lemma C7_witness :
  let st' := processed no_fault (start {[ path := ImageFile (mkImage 1024 768) ]}) in
  fs st' !! path = Some (ImageFile (mkImage 512 384)) /\
  console (trace st') = ["Original size: (1024, 768)"; "Resized to: (512, 384)"].
Proof.
  apply (C7_scenario_1024x768 {[ path := ImageFile (mkImage 1024 768) ]}). reflexivity.
Defined.

(** C8: when opening the existing file fails (the call raises, or the bytes
    are not an image), the file system is left as it was: no save is
    reached, and nothing else writes. *)
Theorem C8_failed_open_leaves_file env st file :
  import_PIL env = None -> fs st !! path = Some file ->
  (open_fault env <> None \/ file = NotAnImage) ->
  let st' := processed env st in
  fs st' = fs st /\
  exists tail, trace st' = (trace st ++ tail)%list /\ existsb is_save tail = false.
Proof.
  intros Hi Hf Hopen. destruct st as [f t]. cbn [fs trace] in *.
  destruct (body_open_fault env f t file Hi Hf Hopen) as [e Hb].
  cbv zeta. rewrite processed_fs, Hb. split; [reflexivity|].
  destruct (processed_trace env (mkState f t)) as (extra & Ht & Hns).
  rewrite Hb in Ht. cbn [snd trace] in Ht.
  exists ([PathExists path; ImageOpen path] ++ extra)%list.
  split; [rewrite Ht, app_assoc; reflexivity|].
  rewrite existsb_app, Hns. reflexivity.
Qed.

Lemma C8_witness :
  let st' := processed no_fault corrupt_logo in
  fs st' = fs corrupt_logo /\
  exists tail, trace st' = (trace corrupt_logo ++ tail)%list /\ existsb is_save tail = false.
Proof.
  apply (C8_failed_open_leaves_file no_fault corrupt_logo NotAnImage).
  - reflexivity.
  - reflexivity.
  - right. reflexivity.
Defined.

(** C9: there is a well-formed image wider than 512, namely 1024 x 1, whose
    new height is 0: the script asks Pillow for a resize to (512, 0), a size
    that is not that of a well-formed image. *)
Theorem C9_zero_height_requested :
  exists img : Image,
    well_formed img /\ 512 < width img /\
    new_height_of (width img) (height img) = Py.Normal 0 /\
    In (ImageResize img (512, 0) LANCZOS)
       (trace (processed no_fault (start {[ path := ImageFile img ]}))) /\
    ~ well_formed (mkImage 512 0).
Proof.
  exists (mkImage 1024 1). unfold well_formed. cbn [width height].
  split; [lia|]. split; [lia|]. split; [reflexivity|]. split.
  - vm_compute. auto 10.
  - lia.
Qed.

(** C10: the script never upscales.  Whatever else happens, as long as the
    save itself does not fail, the image found at the path afterwards is no
    wider and no higher than the one found before. *)
Theorem C10_never_upscales env st img :
  save_fault env = None ->
  fs st !! path = Some (ImageFile img) -> pillow_size img ->
  exists img',
    fs (processed env st) !! path = Some (ImageFile img') /\
    width img' <= width img /\ height img' <= height img.
Proof.
  intros Hs Hf Hsz. destruct st as [f t]. cbn [fs] in Hf. rewrite processed_fs.
  destruct (import_PIL env) as [e|] eqn:Hi.
  { rewrite (body_import_fault env _ e Hi). exists img. cbn. split; [assumption | lia]. }
  destruct (open_fault env) as [e|] eqn:Ho.
  { destruct (body_open_fault env f t _ Hi Hf) as [e' Hb]; [left; congruence|].
    rewrite Hb. exists img. cbn. split; [assumption | lia]. }
  rewrite (body_image env f t img Hi Ho Hf). rewrite Hs.
  destruct (Z.ltb_spec 512 (width img)) as [Hbig | Hsmall].
  - destruct (new_height_of_spec (width img) (height img) Hbig)
      as (nh & Hnh & [_ Hub] & _); [apply Hsz | apply pillow_size_small, Hsz |].
    rewrite Hnh. destruct (resize_fault env); [|destruct (nh <? 1)].
    + exists img. cbn. split; [assumption | lia].
    + exists img. cbn. split; [assumption | lia].
    + exists (mkImage 512 nh). cbn [snd fs width height].
      split; [apply lookup_insert_eq|]. split; [lia|].
      apply Z.le_trans with (1 := Hub).
      apply Z.div_le_upper_bound; [lia|].
      destruct Hsz as [_ [Hh _]]. nia.
  - exists img. cbn [snd fs]. split; [apply lookup_insert_eq | lia].
Qed.

Lemma C10_witness :
  exists img',
    fs (processed no_fault (start {[ path := ImageFile (mkImage 561 561) ]})) !! path
      = Some (ImageFile img') /\
    width img' <= 561 /\ height img' <= 561.
Proof.
  apply (C10_never_upscales no_fault (start {[ path := ImageFile (mkImage 561 561) ]})
           (mkImage 561 561)).
  - reflexivity.
  - reflexivity.
  - unfold pillow_size. cbn. lia.
Defined.

(** * Further properties of the script *)

(** ** Every run, case by case *)

Lemma body_open_raises env f t file e :
  import_PIL env = None -> f !! path = Some file -> open_exn env file = Some e ->
  body env (mkState f t)
  = (Py.Raised e, mkState f (t ++ [PathExists path; ImageOpen path])).
Proof.
  intros Hi Hf Ho. destruct env as [ip op rf sf]. cbn in Hi. subst ip.
  unfold open_exn in Ho. cbn [open_fault] in Ho.
  destruct op as [e'|].
  - injection Ho as ->. run_with Hf. rewrite !app_cons_assoc. reflexivity.
  - destruct file as [img|]; [discriminate|]. injection Ho as <-.
    run_with Hf. rewrite !app_cons_assoc. reflexivity.
Qed.

Lemma open_exn_none env file :
  open_exn env file = None -> open_fault env = None /\ exists img, file = ImageFile img.
Proof.
  unfold open_exn. destruct (open_fault env); [discriminate|].
  destruct file as [img|]; [|discriminate]. intros _. split; [reflexivity | eauto].
Qed.

(** Splits a goal about [body env (mkState f t)] into the ways the suite can
    go, rewriting the suite's outcome in each. *)
Ltac body_cases env f t :=
  let Hi := fresh "Hi" in let Hf := fresh "Hf" in let Ho := fresh "Ho" in
  let Hw := fresh "Hw" in let Hnh := fresh "Hnh" in let Hr := fresh "Hr" in
  let Hs := fresh "Hs" in let Hz := fresh "Hz" in
  let e := fresh "e" in let file := fresh "file" in
  let img := fresh "img" in let nh := fresh "nh" in let remains := fresh "remains" in
  destruct (import_PIL env) as [e|] eqn:Hi;
  [ rewrite (body_import_fault env (mkState f t) e Hi)
  | destruct (f !! path) as [file|] eqn:Hf;
    [ destruct (open_exn env file) as [e|] eqn:Ho;
      [ rewrite (body_open_raises env f t file e Hi Hf Ho)
      | destruct (open_exn_none env file Ho) as [Ho' [img ->]];
        rewrite (body_image env f t img Hi Ho' Hf);
        destruct (Z.ltb_spec 512 (width img)) as [Hw | Hw];
        [ destruct (new_height_of (width img) (height img)) as [nh|e] eqn:Hnh;
          [ destruct (resize_fault env) as [e|] eqn:Hr;
            [ | destruct (Z.ltb_spec nh 1) as [Hz | Hz];
                [ | destruct (save_fault env) as [[e remains]|] eqn:Hs ] ]
          | ]
        | destruct (save_fault env) as [[e remains]|] eqn:Hs ] ]
    | rewrite (body_missing env f t Hi Hf) ] ].

(** X1: whatever happens, the run touches no file but the logo: every other
    path holds afterwards what it held before. *)
Theorem other_files_untouched env st p :
  p <> path -> fs (processed env st) !! p = fs st !! p.
Proof.
  intros Hp. destruct st as [f t]. rewrite processed_fs. cbn [fs].
  body_cases env f t; cbn [snd fs]; try reflexivity;
    try (destruct remains; unfold failed_save);
    rewrite ?lookup_insert_ne, ?lookup_delete_ne by congruence; reflexivity.
Qed.

Lemma other_files_untouched_witness :
  fs (processed disk_full
        (start (<["favicon.ico" := NotAnImage]> {[ path := ImageFile (mkImage 1024 768) ]})))
    !! "favicon.ico"
  = fs (start (<["favicon.ico" := NotAnImage]> {[ path := ImageFile (mkImage 1024 768) ]}))
      !! "favicon.ico".
Proof.
  apply (other_files_untouched disk_full
           (start (<["favicon.ico" := NotAnImage]> {[ path := ImageFile (mkImage 1024 768) ]}))
           "favicon.ico").
  unfold path. discriminate.
Defined.

(** X2: files change in a [save] and nowhere else: a run whose events hold
    no call of [save] (the import failed, the file is missing or cannot be
    opened, the arithmetic or the resize failed) leaves the file system as it
    found it. *)
Theorem files_change_only_in_save env st :
  exists tail,
    trace (processed env st) = (trace st ++ tail)%list /\
    (existsb is_save tail = false -> fs (processed env st) = fs st).
Proof. exact (writes_in_save env st). Qed.

(** The exceptions the arithmetic can raise are ordinary ones. *)
Lemma new_height_of_raises_caught w h e :
  new_height_of w h = Py.Raised e ->
  Py.isinstance e Py.ImportError = false /\ Py.isinstance e Py.Exception = true.
Proof.
  unfold new_height_of, Binary64.truediv, Binary64.int_mul, Binary64.to_int.
  destruct (w =? 0); [intros [= <-]; split; reflexivity|].
  destruct (Binary64.is_finite _); [|intros [= <-]; split; reflexivity].
  destruct (Binary64.is_finite _); [|intros [= <-]; split; reflexivity].
  destruct (Binary64.mul _ _); try discriminate; intros [= <-]; split; reflexivity.
Qed.

Lemma run_caught env st e st1 :
  body env st = (Py.Raised e, st1) -> caught e = true ->
  fst (run env st) = Py.Normal tt.
Proof.
  intros Hb Hc. rewrite run_try, Hb. unfold caught in Hc.
  destruct (Py.isinstance e Py.ImportError); [reflexivity|].
  destruct (Py.isinstance e Py.Exception); [reflexivity | discriminate].
Qed.

(** X3: when every fault of the environment is one that an [except] clause
    matches, the run ends normally, with exit status 0, whatever the files
    and whichever call fails. *)
Theorem exit_status_zero env st :
  faults_caught env = true -> exit_status (fst (run env st)) = Some 0.
Proof.
  intros Hc. assert (Hn : fst (run env st) = Py.Normal tt); [|rewrite Hn; reflexivity].
  unfold faults_caught, caught_opt in Hc.
  apply andb_prop in Hc as [Hc Hsave]. apply andb_prop in Hc as [Hc Hres].
  apply andb_prop in Hc as [Himp Hopen].
  destruct st as [f t].
  destruct (body env (mkState f t)) as [[[]|e0] st1] eqn:Hb;
    [rewrite run_try, Hb; reflexivity|].
  apply (run_caught env _ e0 st1 Hb).
  revert Hb. body_cases env f t; intros [= <- <-] || intros [= <-] || intros [=];
    try assumption.
  - unfold open_exn in Ho. destruct (open_fault env) as [e'|].
    + injection Ho as <-. exact Hopen.
    + destruct file; [discriminate|]. injection Ho as <-. reflexivity.
  - unfold caught. destruct (new_height_of_raises_caught _ _ _ Hnh) as [_ ->].
    apply orb_true_r.
Qed.

Lemma exit_status_zero_witness :
  exit_status (fst (run disk_full (start {[ path := ImageFile (mkImage 1024 768) ]})))
  = Some 0.
Proof.
  apply (exit_status_zero disk_full (start {[ path := ImageFile (mkImage 1024 768) ]})).
  reflexivity.
Defined.

(** Splits a goal about [run env (mkState f t)] into the ways the run can
    go, the choice of the [except] clause included. *)
Ltac run_cases env f t :=
  rewrite run_try; body_cases env f t;
  repeat match goal with
    | |- context [if Py.isinstance ?e ?c then _ else _] =>
        destruct (Py.isinstance e c) eqn:?
    end.

Ltac events_cases env files :=
  unfold printed, events_of, processed, start; run_cases env files (@nil Event);
  unfold small_events, resize_events;
  cbn [snd fst trace fs app console flat_map In].

(** X4: Pillow is asked to resize only an image that is on disk and wider
    than 512, always with the LANCZOS filter and always to width 512 and the
    height [int(height * (512 / width))]. *)
Theorem resize_only_when_wide env files img sz r :
  In (ImageResize img sz r) (events_of env files) ->
  files !! path = Some (ImageFile img) /\ 512 < width img /\
  r = LANCZOS /\ fst sz = 512 /\
  new_height_of (width img) (height img) = Py.Normal (snd sz).
Proof.
  events_cases env files; intros H;
    repeat (destruct H as [H | H]; try discriminate H); try contradiction;
    injection H as <- <- <-; auto.
Qed.

Lemma resize_only_when_wide_witness :
  ({[ path := ImageFile (mkImage 1024 768) ]} : gmap string File) !! path
    = Some (ImageFile (mkImage 1024 768)) /\
  512 < 1024 /\ LANCZOS = LANCZOS /\ fst (512, 384) = 512 /\
  new_height_of 1024 768 = Py.Normal (snd (512, 384)).
Proof.
  apply (resize_only_when_wide disk_full {[ path := ImageFile (mkImage 1024 768) ]}
           (mkImage 1024 768) (512, 384) LANCZOS).
  vm_compute. auto 10.
Defined.

(** X5: every [save] of a run goes to the logo's path with [optimize=True]
    and [quality=85], and the image handed to it is never wider than 512. *)
Theorem saves_are_capped env files img p o q :
  In (ImageSave img p o q) (events_of env files) ->
  p = path /\ o = true /\ q = 85 /\ width img <= 512 /\
  is_Some (files !! path).
Proof.
  events_cases env files; intros H;
    repeat (destruct H as [H | H]; try discriminate H); try contradiction;
    injection H as <- <- <- <-; cbn [width]; repeat split; eauto; lia.
Qed.

Lemma saves_are_capped_witness :
  path = path /\ true = true /\ 85 = 85 /\ width (mkImage 512 384) <= 512 /\
  is_Some (({[ path := ImageFile (mkImage 1024 768) ]} : gmap string File) !! path).
Proof.
  apply (saves_are_capped disk_full {[ path := ImageFile (mkImage 1024 768) ]}
           (mkImage 512 384) path true 85).
  vm_compute. auto 10.
Defined.

(** X6: a line "Resized to: ..." is printed only after the save succeeded:
    the size it reports is the size of the image now at the path. *)
Theorem resized_line_is_truthful env files line :
  In line (printed env files) -> String.prefix "Resized to: " line = true ->
  exists img nh,
    files !! path = Some (ImageFile img) /\ 512 < width img /\
    new_height_of (width img) (height img) = Py.Normal nh /\
    line = "Resized to: " ++ Py.str_pair (512, nh) /\
    fs (processed env (start files)) = <[path := ImageFile (mkImage 512 nh)]> files.
Proof.
  events_cases env files; intros H Hp;
    repeat (destruct H as [H | H]; [subst line; try discriminate Hp|]);
    try contradiction.
  exists img, nh. repeat split; auto.
Qed.

Lemma resized_line_is_truthful_witness :
  exists img nh,
    ({[ path := ImageFile (mkImage 1024 768) ]} : gmap string File) !! path
      = Some (ImageFile img) /\ 512 < width img /\
    new_height_of (width img) (height img) = Py.Normal nh /\
    "Resized to: (512, 384)" = "Resized to: " ++ Py.str_pair (512, nh) /\
    fs (processed no_fault (start {[ path := ImageFile (mkImage 1024 768) ]}))
      = <[path := ImageFile (mkImage 512 nh)]> {[ path := ImageFile (mkImage 1024 768) ]}.
Proof.
  apply (resized_line_is_truthful no_fault {[ path := ImageFile (mkImage 1024 768) ]}
           "Resized to: (512, 384)").
  - vm_compute. auto 10.
  - reflexivity.
Defined.

(** X7: the line "Optimized existing image." is printed only after the save
    succeeded: the path then holds the image that was there, which is at
    most 512 wide. *)
Theorem optimized_line_is_truthful env files :
  In "Optimized existing image." (printed env files) ->
  exists img,
    files !! path = Some (ImageFile img) /\ width img <= 512 /\
    fs (processed env (start files)) = <[path := ImageFile img]> files.
Proof.
  events_cases env files; intros H;
    repeat (destruct H as [H | H]; [try discriminate H|]);
    try contradiction.
  exists img. repeat split; auto.
Qed.

Lemma optimized_line_is_truthful_witness :
  exists img,
    ({[ path := ImageFile (mkImage 256 256) ]} : gmap string File) !! path
      = Some (ImageFile img) /\ width img <= 512 /\
    fs (processed no_fault (start {[ path := ImageFile (mkImage 256 256) ]}))
      = <[path := ImageFile img]> {[ path := ImageFile (mkImage 256 256) ]}.
Proof.
  apply (optimized_line_is_truthful no_fault {[ path := ImageFile (mkImage 256 256) ]}).
  vm_compute. auto 10.
Defined.

(** What a run leaves behind when the save itself cannot fail: the files it
    found, or the same with a logo at most 512 wide saved at the path, and
    this whatever had been done before. *)
Lemma final_fs_cases env f :
  save_fault env = None ->
  (forall t, fs (processed env (mkState f t)) = f) \/
  (exists img, width img <= 512 /\ import_PIL env = None /\ open_fault env = None /\
               forall t, fs (processed env (mkState f t)) = <[path := ImageFile img]> f).
Proof.
  intros Hsave.
  destruct (import_PIL env) as [e|] eqn:Hi.
  { left. intros t. rewrite processed_fs, (body_import_fault env _ e Hi). reflexivity. }
  destruct (f !! path) as [file|] eqn:Hf.
  2:{ left. intros t. rewrite processed_fs, (body_missing env f t Hi Hf). reflexivity. }
  destruct (open_exn env file) as [e|] eqn:Ho.
  { left. intros t.
    rewrite processed_fs, (body_open_raises env f t file e Hi Hf Ho). reflexivity. }
  destruct (open_exn_none env file Ho) as [Ho' [img ->]].
  destruct (Z.ltb_spec 512 (width img)) as [Hw | Hw].
  - destruct (new_height_of (width img) (height img)) as [nh|e] eqn:Hnh.
    + destruct (resize_fault env) as [e|] eqn:Hr.
      * left. intros t. rewrite processed_fs, (body_image env f t img Hi Ho' Hf).
        destruct (Z.ltb_spec 512 (width img)); [|lia]. rewrite Hnh, Hr. reflexivity.
      * destruct (Z.ltb_spec nh 1) as [Hz | Hz].
        -- left. intros t. rewrite processed_fs, (body_image env f t img Hi Ho' Hf).
           destruct (Z.ltb_spec 512 (width img)); [|lia]. rewrite Hnh, Hr.
           destruct (Z.ltb_spec nh 1); [reflexivity | lia].
        -- right. exists (mkImage 512 nh). cbn [width].
           split; [lia|]. split; [reflexivity|]. split; [assumption|]. intros t.
           rewrite processed_fs, (body_image env f t img Hi Ho' Hf).
           destruct (Z.ltb_spec 512 (width img)); [|lia]. rewrite Hnh, Hr, Hsave.
           destruct (Z.ltb_spec nh 1); [lia | reflexivity].
    + left. intros t. rewrite processed_fs, (body_image env f t img Hi Ho' Hf).
      destruct (Z.ltb_spec 512 (width img)); [|lia]. rewrite Hnh. reflexivity.
  - right. exists img. split; [assumption|]. split; [reflexivity|]. split; [assumption|].
    intros t. rewrite processed_fs, (body_image env f t img Hi Ho' Hf).
    destruct (Z.ltb_spec 512 (width img)); [lia|]. rewrite Hsave. reflexivity.
Qed.

(** X8: as long as the save itself does not fail, a second run changes no
    dimension: every path holds afterwards an image of the same width and
    height as after the first run (or, as before, no image), whatever the
    first run found and whichever other call fails, both times.  Only the
    dimensions are compared: the bytes of the logo are written again. *)
Theorem second_run_keeps_dimensions env st :
  save_fault env = None ->
  fs (processed env (processed env st)) = fs (processed env st).
Proof.
  intros Hsave. destruct st as [f t].
  destruct (processed env (mkState f t)) as [f1 t1] eqn:H1.
  assert (Hf1 : f1 = fs (processed env (mkState f t))) by (rewrite H1; reflexivity).
  cbn [fs].
  destruct (final_fs_cases env f Hsave) as [Hsame | (img & Hw & Hi & Ho & Hnew)].
  - rewrite Hsame in Hf1. subst f1. apply Hsame.
  - rewrite Hnew in Hf1. subst f1.
    rewrite processed_fs,
      (body_image env _ t1 img Hi Ho (lookup_insert_eq _ _ _)).
    destruct (Z.ltb_spec 512 (width img)); [lia|]. rewrite Hsave. cbn [snd fs].
    apply insert_insert_eq.
Qed.

Lemma second_run_keeps_dimensions_witness :
  let st := start {[ path := ImageFile (mkImage 1024 1) ]} in
  fs (processed no_fault (processed no_fault st)) = fs (processed no_fault st).
Proof.
  apply (second_run_keeps_dimensions no_fault
           (start {[ path := ImageFile (mkImage 1024 1) ]})).
  reflexivity.
Defined.

(** X9: when the save is reached and fails with an ordinary exception, the
    script does not undo it: the path holds whatever the failed write left,
    the last line printed is "Error: " followed by the description, no
    success line is printed, and the run still ends normally. *)
Theorem failed_save_is_not_undone env files img e remains :
  import_PIL env = None -> open_fault env = None -> resize_fault env = None ->
  save_fault env = Some (e, remains) ->
  Py.isinstance e Py.ImportError = false -> Py.isinstance e Py.Exception = true ->
  files !! path = Some (ImageFile img) -> pillow_size img -> nonempty_resize img ->
  fst (run env (start files)) = Py.Normal tt /\
  fs (processed env (start files)) = failed_save remains files /\
  last (printed env files) = Some ("Error: " ++ Py.exn_str e) /\
  ~ In "Optimized existing image." (printed env files) /\
  (forall line, In line (printed env files) -> String.prefix "Resized to: " line = false).
Proof.
  intros Hi Ho Hr Hs He1 He2 Hf Hsz Hne.
  unfold printed, events_of, processed, start.
  rewrite run_try, (body_image env files [] img Hi Ho Hf), Hr, Hs.
  destruct (Z.ltb_spec 512 (width img)) as [Hw | Hw].
  - destruct (new_height_of_spec (width img) (height img) Hw) as (nh & Hnh & _);
      [apply Hsz | apply pillow_size_small, Hsz |].
    pose proof (nonempty_resize_pos img nh Hsz Hw Hne Hnh) as Hpos.
    rewrite Hnh. destruct (Z.ltb_spec nh 1) as [Hz | Hz]; [lia|]. rewrite He1, He2. cbn [fst snd fs trace app console flat_map last In].
    repeat split; try reflexivity.
    + intros H. repeat (destruct H as [H | H]; [discriminate H|]). contradiction.
    + intros line H. repeat (destruct H as [H | H]; [subst line; reflexivity|]).
      contradiction.
  - rewrite He1, He2. cbn [fst snd fs trace app console flat_map last In].
    repeat split; try reflexivity.
    + intros H. repeat (destruct H as [H | H]; [discriminate H|]). contradiction.
    + intros line H. repeat (destruct H as [H | H]; [subst line; reflexivity|]).
      contradiction.
Qed.

Lemma failed_save_is_not_undone_witness :
  let files : gmap string File := {[ path := ImageFile (mkImage 1024 768) ]} in
  fst (run disk_full (start files)) = Py.Normal tt /\
  fs (processed disk_full (start files)) = failed_save (Some NotAnImage) files /\
  last (printed disk_full files)
    = Some ("Error: " ++ Py.exn_str (Py.OSError "[Errno 28] No space left on device")) /\
  ~ In "Optimized existing image." (printed disk_full files) /\
  (forall line, In line (printed disk_full files) ->
                String.prefix "Resized to: " line = false).
Proof.
  apply (failed_save_is_not_undone disk_full {[ path := ImageFile (mkImage 1024 768) ]}
           (mkImage 1024 768) (Py.OSError "[Errno 28] No space left on device")
           (Some NotAnImage));
    try reflexivity.
  - unfold pillow_size. cbn. lia.
  - intros _. vm_compute. discriminate.
Defined.

(** ** More on the new height *)

(** X10: for an image wider than 512 the new height is never negative; it
    is 0 whenever [512 * height < width], and at least 1 whenever
    [512 * height >= 2 * width]. *)
Theorem new_height_thresholds img :
  pillow_size img -> 512 < width img ->
  exists nh,
    new_height_of (width img) (height img) = Py.Normal nh /\
    0 <= nh /\
    (512 * height img < width img -> nh = 0) /\
    (2 * width img <= 512 * height img -> 1 <= nh).
Proof.
  intros Hsz Hw.
  destruct (new_height_of_spec (width img) (height img) Hw)
    as (nh & Hnh & [Hlo Hhi] & Hex); [apply Hsz | apply pillow_size_small, Hsz |].
  destruct Hsz as [_ [Hh _]].
  set (w := width img) in *. set (h := height img) in *.
  assert (Hw0 : 0 < w) by lia.
  pose proof (Z.div_mod (512 * h) w ltac:(lia)) as E.
  pose proof (Z.mod_pos_bound (512 * h) w Hw0) as B.
  exists nh. split; [exact Hnh|].
  assert (Hzero : 512 * h < w -> nh = 0).
  { intros Hlt. rewrite (Z.div_small (512 * h) w) in * by lia.
    rewrite (Z.mod_small (512 * h) w) in Hex by lia. apply Hex. lia. }
  split; [|split; [exact Hzero|]].
  - destruct (Z_lt_le_dec (512 * h) w) as [Hlt | Hge]; [rewrite Hzero; lia|].
    assert (1 <= 512 * h / w) by (apply Z.div_le_lower_bound; lia). lia.
  - intros Hge. assert (2 <= 512 * h / w) by (apply Z.div_le_lower_bound; lia). lia.
Qed.

Lemma new_height_thresholds_witness :
  exists nh,
    new_height_of 1024 1 = Py.Normal nh /\
    0 <= nh /\
    (512 * 1 < 1024 -> nh = 0) /\
    (2 * 1024 <= 512 * 1 -> 1 <= nh).
Proof.
  apply (new_height_thresholds (mkImage 1024 1)).
  - unfold pillow_size. cbn. lia.
  - cbn. lia.
Defined.

(** Between the two thresholds the outcome depends on the rounding: here
    [512 * 49 = 25088], the exact quotient is 1, and the script asks for
    height 0. *)
Example new_height_25088x49 :
  new_height_of 25088 49 = Py.Normal 0 /\ 49 * 512 / 25088 = 1.
Proof. split; reflexivity. Qed.

(** X11: the resize never stretches the aspect ratio and loses less than
    two rows: [nh * width <= 512 * height < (nh + 2) * width]. *)
Theorem aspect_ratio_within_two_rows img :
  pillow_size img -> 512 < width img ->
  exists nh,
    new_height_of (width img) (height img) = Py.Normal nh /\
    nh * width img <= 512 * height img < (nh + 2) * width img.
Proof.
  intros Hsz Hw.
  destruct (new_height_of_spec (width img) (height img) Hw)
    as (nh & Hnh & [Hlo Hhi] & _); [apply Hsz | apply pillow_size_small, Hsz |].
  set (w := width img) in *. set (h := height img) in *.
  assert (Hw0 : 0 < w) by lia.
  pose proof (Z.div_mod (512 * h) w ltac:(lia)) as E.
  pose proof (Z.mod_pos_bound (512 * h) w Hw0) as B.
  exists nh. split; [exact Hnh|]. nia.
Qed.

Lemma aspect_ratio_within_two_rows_witness :
  exists nh,
    new_height_of 561 561 = Py.Normal nh /\
    nh * 561 <= 512 * 561 < (nh + 2) * 561.
Proof.
  apply (aspect_ratio_within_two_rows (mkImage 561 561)).
  - unfold pillow_size. cbn. lia.
  - cbn. lia.
Defined.

(** An exact input whose low bits are all zero is shifted, not rounded. *)
Lemma binary_round_aux_shift (M : Z) (n ex : Z) :
  0 <= n -> 2 ^ 52 * 2 ^ n <= M < 2 ^ 53 * 2 ^ n -> M mod 2 ^ n = 0 ->
  -1074 <= ex + n -> ex + n <= 971 ->
  binary_round_aux 53 1024 false M ex loc_Exact
  = S754_finite false (Z.to_pos (M / 2 ^ n)) (ex + n).
Proof.
  intros Hn HM Hmod Hlo Hhi.
  assert (Hpn : 0 < 2 ^ n) by (apply Z.pow_pos_nonneg; lia).
  assert (Hd : Zdigits2 M = 53 + n).
  { apply Binary64Facts.Zdigits2_unique; [|lia].
    replace (53 + n - 1) with (52 + n) by lia. rewrite !Z.pow_add_r by lia. exact HM. }
  assert (Hm1 : 2 ^ 52 <= M / 2 ^ n < 2 ^ 53).
  { split; [apply Z.div_le_lower_bound | apply Z.div_lt_upper_bound]; lia. }
  assert (Hd1 : Zdigits2 (M / 2 ^ n) = 53).
  { apply Binary64Facts.Zdigits2_unique; [|lia]. change (53 - 1) with 52. exact Hm1. }
  unfold binary_round_aux, shr_fexp.
  rewrite Binary64Facts.fexp64, Hd, Binary64Facts.shr_record_of_loc_exact.
  rewrite Binary64Facts.shr_rec_of by lia.
  replace (Z.max 0 (Z.max (53 + n + ex - 53) (-1074) - ex)) with n by lia.
  rewrite Z.mul_1_l, Binary64Facts.shr_m_rec_of, Binary64Facts.loc_of_rec_of.
  unfold Binary64.loc_of. rewrite Hmod. cbn [Z.eqb round_nearest_even].
  rewrite Binary64Facts.fexp64, Hd1, Binary64Facts.shr_record_of_loc_exact.
  rewrite Binary64Facts.shr_rec_of by lia.
  replace (Z.max 0 (Z.max (53 + (ex + n) - 53) (-1074) - (ex + n))) with 0 by lia.
  rewrite Binary64Facts.shr_m_rec_of. change (1 * 2 ^ 0) with 1. rewrite Z.div_1_r.
  destruct (M / 2 ^ n) as [|p|p] eqn:E; try lia.
  destruct (Z.leb_spec (ex + n + 0) (1024 - 53)); [|lia].
  cbn [Z.to_pos]. f_equal. lia.
Qed.

(** [512 / 2^k] is the float [2^(9 - k)], with nothing lost. *)
Lemma truediv_512_pow2 k :
  10 <= k <= 30 ->
  Binary64.truediv 512 (2 ^ k)
  = Py.Normal (S754_finite false 4503599627370496 (- 43 - k)).
Proof.
  intros Hk.
  assert (Hc : k = 10 \/ k = 11 \/ k = 12 \/ k = 13 \/ k = 14 \/ k = 15 \/ k = 16 \/
               k = 17 \/ k = 18 \/ k = 19 \/ k = 20 \/ k = 21 \/ k = 22 \/ k = 23 \/
               k = 24 \/ k = 25 \/ k = 26 \/ k = 27 \/ k = 28 \/ k = 29 \/ k = 30) by lia.
  repeat (destruct Hc as [-> | Hc]; [vm_compute; reflexivity|]).
  subst k. vm_compute. reflexivity.
Qed.

(** X12: when the width is a power of two (1024, 2048, ...) the float
    arithmetic loses nothing: the new height is exactly
    [floor(height * 512 / width)]. *)
Theorem power_of_two_width_is_exact k h :
  10 <= k <= 30 -> 0 < h < 2 ^ 31 ->
  new_height_of (2 ^ k) h = Py.Normal (h * 512 / 2 ^ k).
Proof.
  intros Hk Hh.
  assert (Hh53 : h < 2 ^ 53).
  { apply Z.lt_trans with (2 ^ 31); [lia|]. apply Z.pow_lt_mono_r; lia. }
  destruct h as [|ph|ph]; try lia.
  destruct (Binary64Facts.of_int_pos_spec ph Hh53) as (mh & c & Hof & Hc & Hmh & Hmhb).
  unfold new_height_of. rewrite (truediv_512_pow2 k Hk).
  unfold Binary64.int_mul. rewrite Hof. cbn [Binary64.is_finite].
  unfold Binary64.mul, Binary64.prec, Binary64.emax, SFmul. cbn [xorb].
  rewrite Pos2Z.inj_mul.
  change (Zpos 4503599627370496) with (2 ^ 52).
  rewrite (binary_round_aux_shift (Zpos mh * 2 ^ 52) 52) by
    (try lia; rewrite ?Z.mod_mul by lia; try reflexivity; nia).
  rewrite Z.div_mul by lia. cbn [Z.to_pos Binary64.to_int]. f_equal.
  rewrite (trunc_pos_div mh _ 0 (c + (k - 9))) by lia.
  rewrite Z.pow_0_r, Z.mul_1_r, Hmh.
  assert (Hpc : 0 < 2 ^ c) by (apply Z.pow_pos_nonneg; lia).
  assert (Hpk : 0 < 2 ^ (k - 9)) by (apply Z.pow_pos_nonneg; lia).
  rewrite (Z.pow_add_r 2 c (k - 9)) by lia.
  rewrite (Z.mul_comm (2 ^ c)), Z.div_mul_cancel_r by lia.
  replace (2 ^ k) with (2 ^ (k - 9) * 512).
  - rewrite Z.div_mul_cancel_r by lia. reflexivity.
  - change 512 with (2 ^ 9). rewrite <- Z.pow_add_r by lia. f_equal. lia.
Qed.

Lemma power_of_two_width_is_exact_witness :
  new_height_of (2 ^ 11) 1365 = Py.Normal (1365 * 512 / 2 ^ 11).
Proof.
  apply (power_of_two_width_is_exact 11 1365).
  - lia.
  - change (2 ^ 31) with 2147483648. lia.
Defined.

(** X13: once the file is open, the first line printed is the original
    size, whatever fails afterwards. *)
Theorem original_size_is_reported_first env files img :
  import_PIL env = None -> open_fault env = None ->
  files !! path = Some (ImageFile img) ->
  head (printed env files) = Some ("Original size: " ++ Py.str_pair (size img)).
Proof.
  intros Hi Ho Hf. unfold printed, events_of, processed, start.
  rewrite run_try, (body_image env files [] img Hi Ho Hf).
  destruct (512 <? width img).
  - destruct (new_height_of (width img) (height img)) as [nh|e].
    + destruct (resize_fault env) as [e|];
        [|destruct (nh <? 1); [reflexivity|];
          destruct (save_fault env) as [[e remains]|]; [|reflexivity]];
        destruct (Py.isinstance e Py.ImportError); try reflexivity;
        destruct (Py.isinstance e Py.Exception); reflexivity.
    + destruct (Py.isinstance e Py.ImportError); try reflexivity;
        destruct (Py.isinstance e Py.Exception); reflexivity.
  - destruct (save_fault env) as [[e remains]|]; [|reflexivity].
    destruct (Py.isinstance e Py.ImportError); try reflexivity;
      destruct (Py.isinstance e Py.Exception); reflexivity.
Qed.

Lemma original_size_is_reported_first_witness :
  head (printed disk_full {[ path := ImageFile (mkImage 1024 768) ]})
  = Some ("Original size: " ++ Py.str_pair (size (mkImage 1024 768))).
Proof.
  apply (original_size_is_reported_first disk_full
           {[ path := ImageFile (mkImage 1024 768) ]} (mkImage 1024 768));
    reflexivity.
Defined.
